(** * Access control and viewpoint resolution of flask-demograder

    A shallow embedding of [demograder/context.py]: the [Role] scale, the
    resolver functions [_set_user_context] ... [_set_role_context] and the
    access check [get_context], followed by the properties of the
    specification that concern them.

    Python values are dynamically typed, so the request context (a [dict]
    from key names to arbitrary objects) is a finite map from strings to a
    sum type [value]; exceptions, among them the one raised by Flask's
    [abort], are the error side of a small result monad. *)

From Stdlib Require Import ZArith String Ascii List Bool Lia.
From stdpp Require Import base option gmap strings.

Local Open Scope string_scope.
Local Open Scope Z_scope.

(** ** Role (context.py, lines 8-16) *)

Inductive Role := STUDENT | INSTRUCTOR | FACULTY | ADMIN.

(** The integer an [IntEnum] member stands for. *)
Definition Role_value (r : Role) : Z :=
  match r with
  | STUDENT => 0
  | INSTRUCTOR => 1
  | FACULTY => 2
  | ADMIN => 3
  end.

(** [Role.__members__], in definition order. *)
Definition Role_members : list (string * Role) :=
  [("STUDENT", STUDENT); ("INSTRUCTOR", INSTRUCTOR);
   ("FACULTY", FACULTY); ("ADMIN", ADMIN)].

Fixpoint assoc {A} (k : string) (l : list (string * A)) : option A :=
  match l with
  | [] => None
  | (k', a) :: l' => if String.eqb k' k then Some a else assoc k l'
  end.

(** [name in Role.__members__] *)
Definition in_Role_members (name : string) : bool :=
  match assoc name Role_members with Some _ => true | None => false end.

(** [min(a, b)] on two members: Python keeps the first argument unless the
    second is strictly smaller. *)
Definition Role_min (a b : Role) : Role :=
  if Role_value b <? Role_value a then b else a.

(** ** Stored records *)

(** Modelled from the spec: models.py is not among the sources. A user has an
    identifier, a unique email and the two privilege flags [admin] and
    [faculty] (section 3 of the specification). *)
Record User := mkUser {
  user_id : Z;
  email : string;
  admin : bool;
  faculty : bool
}.

(** Modelled from the spec: models.py is not among the sources. A course is
    an entity with an identifier (section 3 of the specification). *)
Record Course := mkCourse {
  course_number : Z
}.

(** ** Python values and exceptions *)

Inductive value :=
| VNone
| VBool (b : bool)
| VInt (z : Z)
| VStr (s : string)
| VUser (u : User)
| VCourse (c : Course)
| VRole (r : Role)
| VObject (name : string).   (* a class, function or proxy bound at module level *)

Inductive exn :=
| HTTPException (code : Z)   (* raised by flask.abort(code) *)
| NameError (name : string)
| KeyError (key : string)
| AttributeError (attr : string)
| TypeError.

Inductive result (A : Type) :=
| Ok (a : A)
| Raise (e : exn).
Arguments Ok {A} a.
Arguments Raise {A} e.

#[global] Instance result_bind : MBind result :=
  fun A B f m => match m with Ok a => f a | Raise e => Raise e end.

#[global] Instance Role_eq_dec : EqDecision Role.
Proof. solve_decision. Defined.
#[global] Instance User_eq_dec : EqDecision User.
Proof. solve_decision. Defined.
#[global] Instance Course_eq_dec : EqDecision Course.
Proof. solve_decision. Defined.
#[global] Instance value_eq_dec : EqDecision value.
Proof. solve_decision. Defined.
#[global] Instance exn_eq_dec : EqDecision exn.
Proof. solve_decision. Defined.

Definition abort {A} (code : Z) : result A := Raise (HTTPException code).

(** Truth value of an object in a condition. Model objects define neither
    [__bool__] nor [__len__], so they are true; an [IntEnum] member is true
    when its integer is not zero. *)
Definition truthy (v : value) : bool :=
  match v with
  | VNone => false
  | VBool b => b
  | VInt z => negb (z =? 0)
  | VStr s => negb (String.eqb s "")
  | VUser _ | VCourse _ | VObject _ => true
  | VRole r => negb (Role_value r =? 0)
  end.

(** The integer behind a value of a numeric type ([bool], [int], [IntEnum]). *)
Definition as_int (v : value) : option Z :=
  match v with
  | VBool b => Some (Z.b2z b)
  | VInt z => Some z
  | VRole r => Some (Role_value r)
  | _ => None
  end.

(** [a != b]. Numbers compare by value; model objects compare by identity,
    and two objects loaded in one session are the same object exactly when
    they are the same row, which here is equality of records. *)
Definition py_ne (a b : value) : bool :=
  match as_int a, as_int b with
  | Some x, Some y => negb (x =? y)
  | _, _ => negb (bool_decide (a = b))
  end.

(** [a > b], defined between numbers only. *)
Definition py_gt (a b : value) : result bool :=
  match as_int a, as_int b with
  | Some x, Some y => Ok (y <? x)
  | _, _ => Raise TypeError
  end.

(** [a or b] evaluates to its first operand when that one is true. *)
Definition py_or (a b : value) : value := if truthy a then a else b.

(** [d[k]] and [k in d] on a dict with string keys. *)
Definition getitem {A} (d : gmap string A) (k : string) : result A :=
  match d !! k with
  | Some v => Ok v
  | None => Raise (KeyError k)
  end.

Definition contains {A} (d : gmap string A) (k : string) : bool :=
  match d !! k with Some _ => true | None => false end.

(** [Role[name]] *)
Definition Role_getitem (name : string) : result Role :=
  match assoc name Role_members with
  | Some r => Ok r
  | None => Raise (KeyError name)
  end.

(** Attribute access [v.a] on the attributes the engine reads. *)
Definition getattr (v : value) (a : string) : result value :=
  match v with
  | VUser u =>
      if String.eqb a "admin" then Ok (VBool (admin u))
      else if String.eqb a "faculty" then Ok (VBool (faculty u))
      else if String.eqb a "id" then Ok (VInt (user_id u))
      else if String.eqb a "email" then Ok (VStr (email u))
      else Raise (AttributeError a)
  | _ => Raise (AttributeError a)
  end.

(** ** ASCII case mapping

    [str.upper] restricted to ASCII text, where it maps a-z to A-Z and
    leaves every other character alone. *)

Definition upper_char (c : ascii) : ascii :=
  let n := N_of_ascii c in
  if ((97 <=? n) && (n <=? 122))%N then ascii_of_N (n - 32) else c.

Definition lower_char (c : ascii) : ascii :=
  let n := N_of_ascii c in
  if ((65 <=? n) && (n <=? 90))%N then ascii_of_N (n + 32) else c.

Fixpoint ascii_upper (s : string) : string :=
  match s with
  | EmptyString => EmptyString
  | String c s' => String (upper_char c) (ascii_upper s')
  end.

Fixpoint ascii_lower (s : string) : string :=
  match s with
  | EmptyString => EmptyString
  | String c s' => String (lower_char c) (ascii_lower s')
  end.

(** A string all of whose characters are below 128. *)
Fixpoint is_ascii (s : string) : bool :=
  match s with
  | EmptyString => true
  | String c s' => (N_of_ascii c <? 128)%N && is_ascii s'
  end.

(** ** The environment of a request *)

(** Modelled from the spec: models.py is not among the sources. The engine
    reads stored data through four operations (section 6): the first user
    whose email is a given value, the first course whose identifier is a
    given value, and the two relationship predicates. *)
Record DataAccess := {
  user_by_email : value -> option User;
  course_by_id : value -> option Course;
  teaching : User -> Course -> bool;
  taking : User -> Course -> bool
}.

(** Flask's [session] and [request.args.to_dict()]. *)
Record Request := {
  session : gmap string value;
  args : gmap string string
}.

(** Names bound at module level in context.py (imports, the class and the
    functions); a name that is neither local nor in this list nor a builtin
    cannot be loaded. *)
Definition module_globals : list string :=
  ["IntEnum"; "session"; "request"; "abort"; "User"; "Course"; "Role";
   "_set_user_context"; "_set_viewer_context"; "_set_course_context";
   "_set_instructor_context"; "_set_student_context"; "_set_role_context";
   "get_context"].

Definition load_global (name : string) : result value :=
  if bool_decide (name ∈ module_globals) then Ok (VObject name)
  else Raise (NameError name).

(** ** The resolvers and [get_context] (context.py, lines 19-135) *)

Section Engine.

(** [str.upper], a builtin of the language: on ASCII text it is [ascii_upper]
    (hypothesis [str_upper_ascii] below), elsewhere it follows the Unicode
    tables, which the engine does not depend on. *)
Variable str_upper : string -> string.

(** The stored data behind [User.query] and [Course.query]. *)
Variable D : DataAccess.

(** [v.upper()] *)
Definition call_upper (v : value) : result string :=
  match v with
  | VStr s => Ok (str_upper s)
  | _ => Raise (AttributeError "upper")
  end.

(** [User.query.filter_by(email=e).first()] and
    [Course.query.filter_by(id=i).first()]: a row, or [None]. *)
Definition User_first (e : value) : value :=
  match user_by_email D e with Some u => VUser u | None => VNone end.

Definition Course_first (i : value) : value :=
  match course_by_id D i with Some c => VCourse c | None => VNone end.

(** [v.teaching(c)] and [v.taking(c)] *)
Definition call_teaching (v c : value) : result value :=
  match v, c with
  | VUser u, VCourse k => Ok (VBool (teaching D u k))
  | VUser _, _ => Raise TypeError
  | _, _ => Raise (AttributeError "teaching")
  end.

Definition call_taking (v c : value) : result value :=
  match v, c with
  | VUser u, VCourse k => Ok (VBool (taking D u k))
  | VUser _, _ => Raise TypeError
  | _, _ => Raise (AttributeError "taking")
  end.

(** Line 20, right-hand side: the user of the session, or [None]. *)
Definition session_user (rq : Request) : value :=
  User_first (default VNone (session rq !! "user_email")).

(** lines 19-20 *)
Definition _set_user_context (rq : Request) (context : gmap string value)
    (url_args : gmap string string) (kwargs : gmap string value)
    : result (gmap string value) :=
  Ok (<["user" := session_user rq]> context).

(** lines 23-28 *)
Definition _set_viewer_context (context : gmap string value)
    (url_args : gmap string string) (kwargs : gmap string value)
    : result (gmap string value) :=
  u ← getitem context "user";
  a ← getattr u "admin";
  context ← (if truthy a && contains url_args "viewer" then
               e ← getitem url_args "viewer";
               Ok (<["viewer" := User_first (VStr e)]> context)
             else Ok context);
  context ← (if negb (truthy (default VNone (context !! "viewer"))) then
               u ← getitem context "user";
               Ok (<["viewer" := u]> context)
             else Ok context);
  u ← getitem context "user";
  v ← getitem context "viewer";
  Ok (<["alternate_view" := VBool (py_ne u v)]> context).

(** lines 31-35 *)
Definition _set_course_context (context : gmap string value)
    (url_args : gmap string string) (kwargs : gmap string value)
    : result (gmap string value) :=
  if contains kwargs "course_id" then
    i ← getitem kwargs "course_id";
    Ok (<["course" := Course_first i]> context)
  else Ok context.

(** lines 38-44 *)
Definition _set_instructor_context (context : gmap string value)
    (url_args : gmap string string) (kwargs : gmap string value)
    : result (gmap string value) :=
  v ← getitem context "viewer";
  a ← getattr v "admin";
  if truthy a then
    Ok (<["instructor" := VBool true]> context)
  else if truthy (default VNone (context !! "course")) then
    v ← getitem context "viewer";
    c ← getitem context "course";
    t ← call_teaching v c;
    Ok (<["instructor" := t]> context)
  else
    Ok (<["instructor" := VBool false]> context).

(** lines 47-51 *)
Definition _set_student_context (context : gmap string value)
    (url_args : gmap string string) (kwargs : gmap string value)
    : result (gmap string value) :=
  if truthy (default VNone (context !! "course")) then
    v ← getitem context "viewer";
    c ← getitem context "course";
    t ← call_taking v c;
    Ok (<["student" := t]> context)
  else
    Ok (<["student" := VBool false]> context).

(** Line 56-57: the [role] parameter is deleted from [url_args] when its
    upper-cased value names no member. *)
Definition drop_invalid_role (url_args : gmap string string) : gmap string string :=
  match url_args !! "role" with
  | Some s => if negb (in_Role_members (str_upper s)) then delete "role" url_args
              else url_args
  | None => url_args
  end.

(** lines 54-78. [url_args] is changed in place by line 57, so the function
    hands back both dictionaries. *)
Definition _set_role_context (context : gmap string value)
    (url_args : gmap string string) (kwargs : gmap string value)
    : result (gmap string value * gmap string string) :=
  cls ← load_global "Role";
  let context := <["Role" := cls]> context in
  let url_args := drop_invalid_role url_args in
  v ← getitem context "viewer";
  a ← getattr v "admin";
  if truthy a then
    r ← Role_getitem (str_upper (default "admin" (url_args !! "role")));
    let context := <["role" := VRole (Role_min r ADMIN)]> context in
    av ← getitem context "alternate_view";
    r' ← getitem context "role";
    Ok (<["alternate_view" := py_or av (VBool (py_ne r' (VRole ADMIN)))]> context,
        url_args)
  else
    v ← getitem context "viewer";
    f ← getattr v "faculty";
    if truthy f then
      r ← Role_getitem (str_upper (default "faculty" (url_args !! "role")));
      let context := <["role" := VRole (Role_min r FACULTY)]> context in
      av ← getitem context "alternate_view";
      r' ← getitem context "role";
      Ok (<["alternate_view" := py_or av (VBool (py_ne r' (VRole FACULTY)))]> context,
          url_args)
    else
      i ← getitem context "instructor";
      if truthy i then
        r ← Role_getitem (str_upper (default "instructor" (url_args !! "role")));
        let context := <["role" := VRole (Role_min r INSTRUCTOR)]> context in
        av ← getitem context "alternate_view";
        r' ← getitem context "role";
        Ok (<["alternate_view" := py_or av (VBool (py_ne r' (VRole INSTRUCTOR)))]> context,
            url_args)
      else
        let context := <["role" := VRole STUDENT]> context in
        av ← getitem context "alternate_view";
        r' ← getitem context "role";
        Ok (<["alternate_view" := py_or av (VBool (py_ne r' (VRole STUDENT)))]> context,
            url_args).

(** Lines 122-125, the check for the specific user. The condition of line 123
    reads the name [user], which is neither a local of [get_context] nor bound
    in the module. *)
Definition check_specific_user (context : gmap string value)
    (kwargs : gmap string value) : result unit :=
  user ← load_global "user";
  a ← getattr user "admin";
  if negb (truthy a) then
    if contains kwargs "user" then
      k ← getitem kwargs "user";
      u ← getitem context "user";
      i ← getattr u "id";
      if py_ne k i then abort 403 else Ok tt
    else Ok tt
  else Ok tt.

(** Lines 130-131, the check for standing. [or] looks at [student] only when
    [instructor] is false. *)
Definition check_standing (context : gmap string value) : result unit :=
  i ← getitem context "instructor";
  if truthy i then Ok tt
  else
    s ← getitem context "student";
    if truthy s then Ok tt else abort 403.

(** Lines 133-134, the check for the minimum role. *)
Definition check_min_role (context : gmap string value)
    (kwargs : gmap string value) : result unit :=
  m ← call_upper (default (VStr "student") (kwargs !! "min_role"));
  r ← Role_getitem m;
  cr ← getitem context "role";
  below ← py_gt (VRole r) cr;
  if (below : bool) then abort 403 else Ok tt.

(** Lines 126-135: what [get_context] does once the check for the specific
    user has let the request through. *)
Definition resolve_from_viewer (context : gmap string value)
    (url_args : gmap string string) (kwargs : gmap string value)
    : result (gmap string value) :=
  context ← _set_viewer_context context url_args kwargs;
  context ← _set_course_context context url_args kwargs;
  context ← _set_instructor_context context url_args kwargs;
  context ← _set_student_context context url_args kwargs;
  check_standing context;;
  '(context, url_args) ← _set_role_context context url_args kwargs;
  check_min_role context kwargs;;
  Ok context.

(** A resolver takes [context] and [url_args] by position and the endpoint
    arguments as keywords. Python refuses the call with [TypeError] when a
    keyword names one of the two positional parameters. *)
Definition check_keywords (kwargs : gmap string value) : result unit :=
  if contains kwargs "context" || contains kwargs "url_args" then Raise TypeError
  else Ok tt.

(** Lines 81-135. The call of line 116 is the first to unpack [kwargs]; the
    calls of lines 126-132 unpack the same dictionary, so they are reached
    only when the keywords have been accepted once. *)
Definition get_context (rq : Request) (kwargs : gmap string value)
    : result (gmap string value) :=
  let url_args := args rq in
  let context : gmap string value := ∅ in
  check_keywords kwargs;;
  context ← _set_user_context rq context url_args kwargs;
  if negb (truthy (default (VBool true) (kwargs !! "login_required"))) then
    Ok context
  else
    u ← getitem context "user";
    (if negb (truthy u) then abort 401 else Ok tt);;
    check_specific_user context kwargs;;
    resolve_from_viewer context url_args kwargs.

End Engine.

(** ** Vocabulary of the properties *)

(** The course in scope, if any. [context.get('course', None)] is a course
    object, or it is missing or [None]. *)
Definition course_in_scope (context : gmap string value) : option Course :=
  match context !! "course" with
  | Some (VCourse c) => Some c
  | _ => None
  end.

(** The default names of lines 60, 66 and 72, by the ceiling of the branch. *)
Definition default_role_name (ceiling : Role) : string :=
  match ceiling with
  | ADMIN => "admin"
  | FACULTY => "faculty"
  | INSTRUCTOR => "instructor"
  | STUDENT => "student"
  end.

(** The context part of what [_set_role_context] hands back. *)
Definition context_of {A B} (r : result (A * B)) : result A :=
  match r with
  | Ok (c, _) => Ok c
  | Raise e => Raise e
  end.

(** ** The privilege ceiling of the specification *)

(** Follows the specification (section 4.6, [trueCeiling]): the cascade on
    the viewer's flags and scoped standing; first matching branch wins. *)
Definition trueCeiling (viewer : User) (instructor : bool) : Role :=
  if admin viewer then ADMIN
  else if faculty viewer then FACULTY
  else if instructor then INSTRUCTOR
  else STUDENT.

(** ** Sample data: three users and one course *)

Module Sample.

Definition alice : User := mkUser 1 "alice@x.edu" true false.
Definition bob : User := mkUser 2 "bob@x.edu" false true.
Definition carol : User := mkUser 3 "carol@x.edu" false false.
Definition dave : User := mkUser 4 "dave@x.edu" false false.
Definition course7 : Course := mkCourse 7.

(** carol teaches course 7, dave takes it; alice and bob have no relation
    to it. *)
Definition data : DataAccess := {|
  user_by_email e :=
    assoc (match e with VStr s => s | _ => "" end)
      [("alice@x.edu", alice); ("bob@x.edu", bob);
       ("carol@x.edu", carol); ("dave@x.edu", dave)];
  course_by_id i :=
    if bool_decide (i = VInt 7) then Some course7 else None;
  teaching u c := bool_decide (u = carol ∧ c = course7);
  taking u c := bool_decide (u = dave ∧ c = course7)
|}.

(** A request of the logged-in user with email [e] and query string [q]. *)
Definition request_of (e : string) (q : list (string * string)) : Request :=
  {| session := {["user_email" := VStr e]}; args := list_to_map q |}.

End Sample.

(** ** Vocabulary of the further properties *)

(** [r.name], the name of a member. *)
Definition Role_name (r : Role) : string :=
  match r with
  | STUDENT => "STUDENT"
  | INSTRUCTOR => "INSTRUCTOR"
  | FACULTY => "FACULTY"
  | ADMIN => "ADMIN"
  end.

(** Two contexts that differ at most in [user] and [alternate_view]: the
    first belongs to the principal [a] and is marked as an alternate view,
    the second carries a boolean flag. *)
Definition same_view (a : User) (c1 c2 : gmap string value) : Prop :=
  c1 !! "user" = Some (VUser a) /\
  c1 !! "alternate_view" = Some (VBool true) /\
  (exists b, c2 !! "alternate_view" = Some (VBool b)) /\
  forall k, k ≠ "user" -> k ≠ "alternate_view" -> c1 !! k = c2 !! k.

(** Two runs that end alike: with the same exception, or with results that
    [R] relates. *)
Definition alike {A B} (R : A -> B -> Prop) (r1 : result A) (r2 : result B) : Prop :=
  match r1, r2 with
  | Ok x, Ok y => R x y
  | Raise e1, Raise e2 => e1 = e2
  | _, _ => False
  end.

(** ** routes.py *)

Module Routes.

(** What a view hands to a template: one object, or the list of rows that
    [Model.query.all()] returns. *)
Inductive tvalue :=
| TObject (v : value)
| TList (rows : list value).

(** What a view returns: [redirect(url_for(endpoint))] or
    [render_template(template, **context)]. *)
Inductive response :=
| Redirect (endpoint : string)
| Render (template : string) (context : gmap string tvalue).

(** Modelled from the spec: models.py is not among the sources. The rows of
    the five tables that lines 24-28 read with [query.all()]. *)
Record Tables := {
  users : list value;
  courses : list value;
  assignments : list value;
  questions : list value;
  question_files : list value
}.

Section Views.

Variable D : DataAccess.
Variable T : Tables.

(** lines 11-13 *)
Definition get_user (rq : Request) : value :=
  let user_email := default VNone (session rq !! "user_email") in
  User_first D user_email.

(** lines 16-30 *)
Definition get_context (rq : Request) : result (gmap string tvalue) :=
  let context : gmap string tvalue := ∅ in
  let user := get_user rq in
  if negb (truthy user) then abort 401
  else
    let context := <["user" := TObject user]> context in
    let context := <["users" := TList (users T)]> context in
    let context := <["courses" := TList (courses T)]> context in
    let context := <["assignments" := TList (assignments T)]> context in
    let context := <["questions" := TList (questions T)]> context in
    let context := <["question_files" := TList (question_files T)]> context in
    Ok context.

(** lines 33-38 *)
Definition root (rq : Request) : result response :=
  let user := get_user rq in
  if truthy user then Ok (Redirect "demograder.home")
  else Ok (Render "index.html" ∅).

(** lines 41-44 *)
Definition home (rq : Request) : result response :=
  context ← get_context rq;
  Ok (Render "home.html" context).

(** lines 130-132 *)
Definition unauthorized_error (error : exn) : response :=
  Redirect "demograder.root".

(** The answer of the blueprint to a request for one of its views: an abort
    with 401 inside the view goes to the handler registered at line 130. *)
Definition answer (view : Request -> result response) (rq : Request)
    : result response :=
  match view rq with
  | Raise (HTTPException 401) => Ok (unauthorized_error (HTTPException 401))
  | r => r
  end.

End Views.

(** A URL rule of the blueprint with the view it is bound to: the variables
    the rule fills in, from the URL or from [defaults], and the parameters of
    the view function. *)
Record rule := {
  rule_url : string;
  rule_view : string;
  rule_variables : list string;
  view_parameters : list string
}.

#[global] Instance rule_eq_dec : EqDecision rule.
Proof. solve_decision. Defined.

(** The rules of lines 33-92, in order. *)
Definition url_map : list rule :=
  [ {| rule_url := "/"; rule_view := "root";
       rule_variables := []; view_parameters := [] |};
    {| rule_url := "/home"; rule_view := "home";
       rule_variables := []; view_parameters := [] |};
    {| rule_url := "/user/<user_id>"; rule_view := "user_view";
       rule_variables := ["user_id"]; view_parameters := ["user_id"] |};
    {| rule_url := "/question/<question_id>"; rule_view := "question_view";
       rule_variables := ["question_id"]; view_parameters := ["question_id"] |};
    {| rule_url := "/submission/<submission_id>"; rule_view := "submission_view";
       rule_variables := ["submission_id"]; view_parameters := ["submission_id"] |};
    {| rule_url := "/download_submission/<submission_id>";
       rule_view := "download_submission";
       rule_variables := ["submission_id"]; view_parameters := ["submission_id"] |};
    {| rule_url := "/result/<result_id>"; rule_view := "result_view";
       rule_variables := ["result_id"]; view_parameters := ["result_id"] |};
    {| rule_url := "/download_result/<result_id>"; rule_view := "download_result";
       rule_variables := ["result_id"]; view_parameters := ["result_id"] |};
    {| rule_url := "/file/<file>"; rule_view := "file_view";
       rule_variables := ["file"]; view_parameters := ["file_id"] |};
    {| rule_url := "/download_file/<file>"; rule_view := "download_file";
       rule_variables := ["file"]; view_parameters := ["file_id"] |};
    {| rule_url := "/forms/user/"; rule_view := "user_form";
       rule_variables := ["user_id"]; view_parameters := ["user_id"] |};
    {| rule_url := "/forms/user/<user_id>"; rule_view := "user_form";
       rule_variables := ["user_id"]; view_parameters := ["user_id"] |} ].

(** The values of [parameters] taken from keyword arguments, as a call of
    the view with [view_args] unpacked into keywords binds them: a keyword that is no parameter, or a
    parameter without a keyword, is a [TypeError]. *)
Fixpoint take_keywords (parameters : list string) (view_args : gmap string value)
    : result (list value) :=
  match parameters with
  | [] => Ok []
  | p :: ps =>
      match view_args !! p with
      | Some v => vs ← take_keywords ps view_args; Ok (v :: vs)
      | None => Raise TypeError
      end
  end.

Definition bind_keywords (parameters : list string) (view_args : gmap string value)
    : result (list value) :=
  if forallb (fun k => bool_decide (k ∈ parameters)) (elements (dom view_args))
  then take_keywords parameters view_args
  else Raise TypeError.

End Routes.

(** Sample rows for the views of routes.py. *)
Module SampleRoutes.

Definition tables : Routes.Tables := {|
  Routes.users := [VUser Sample.alice; VUser Sample.bob;
                   VUser Sample.carol; VUser Sample.dave];
  Routes.courses := [VCourse Sample.course7];
  Routes.assignments := [];
  Routes.questions := [];
  Routes.question_files := []
|}.

End SampleRoutes.

(** * Properties *)

(** ** The result monad *)

Lemma bind_Ok {A B} (m : result A) (f : A -> result B) (b : B) :
  m ≫= f = Ok b -> exists a, m = Ok a /\ f a = Ok b.
Proof. destruct m as [a|e]; simpl; [eauto | discriminate]. Qed.

Lemma getitem_Ok {A} (d : gmap string A) (k : string) (v : A) :
  getitem d k = Ok v <-> d !! k = Some v.
Proof.
  unfold getitem. destruct (d !! k); split; intros H; congruence.
Qed.

Lemma getitem_Some {A} (d : gmap string A) (k : string) (v : A) :
  d !! k = Some v -> getitem d k = Ok v.
Proof. apply getitem_Ok. Qed.

Lemma getitem_insert_eq {A} (d : gmap string A) (k : string) (v : A) :
  getitem (<[k := v]> d) k = Ok v.
Proof. unfold getitem. by rewrite lookup_insert_eq. Qed.

Lemma getitem_insert_ne {A} (d : gmap string A) (k k' : string) (v : A) :
  k ≠ k' -> getitem (<[k := v]> d) k' = getitem d k'.
Proof. intros Hk. unfold getitem. by rewrite lookup_insert_ne. Qed.

Lemma contains_true {A} (d : gmap string A) (k : string) :
  contains d k = true <-> is_Some (d !! k).
Proof.
  unfold contains. destruct (d !! k); split; intros H; eauto.
  - discriminate.
  - destruct H; discriminate.
Qed.

Lemma getattr_Ok_user (v : value) (a : string) (w : value) :
  getattr v a = Ok w -> exists u, v = VUser u.
Proof. destruct v; simpl; try discriminate. eauto. Qed.

(** Splits a hypothesis [m ≫= f = Ok b] into the two steps. *)
Ltac bind_inv H :=
  let a := fresh "x" in
  let Ha := fresh "Hx" in
  apply bind_Ok in H; destruct H as (a & Ha & H); simpl in H.

(** Case analysis on the conditions of the [if]s left in [H]. *)
Ltac cases_if H :=
  repeat match type of H with
         | context [if ?b then _ else _] => destruct b eqn:?; simpl in H
         end.

Section Properties.

Variable str_upper : string -> string.
Variable D : DataAccess.

(** ** The login check *)

Lemma check_keywords_Ok (kwargs : gmap string value) :
  kwargs !! "context" = None -> kwargs !! "url_args" = None ->
  check_keywords kwargs = Ok tt.
Proof. intros H1 H2. unfold check_keywords, contains. by rewrite H1, H2. Qed.

(** The keywords of line 116 are refused before anything else happens. *)
Lemma get_context_keywords_refused (rq : Request) (kwargs : gmap string value) :
  check_keywords kwargs = Raise TypeError ->
  get_context str_upper D rq kwargs = Raise TypeError.
Proof. intros H. unfold get_context. by rewrite H. Qed.

Lemma get_context_login_not_required (rq : Request) (kwargs : gmap string value) :
  check_keywords kwargs = Ok tt ->
  truthy (default (VBool true) (kwargs !! "login_required")) = false ->
  get_context str_upper D rq kwargs = Ok {["user" := session_user D rq]}.
Proof.
  intros Hk H. unfold get_context, _set_user_context. rewrite Hk. simpl.
  rewrite H. simpl. by rewrite insert_empty.
Qed.

Lemma get_context_unauthenticated (rq : Request) (kwargs : gmap string value) :
  check_keywords kwargs = Ok tt ->
  truthy (default (VBool true) (kwargs !! "login_required")) = true ->
  truthy (session_user D rq) = false ->
  get_context str_upper D rq kwargs = abort 401.
Proof.
  intros Hk H Hp. unfold get_context, _set_user_context. rewrite Hk. simpl.
  rewrite H. simpl. unfold getitem. rewrite lookup_insert_eq. simpl.
  by rewrite Hp.
Qed.

(** Line 123 cannot load the name [user]. *)
Lemma check_specific_user_NameError (context kwargs : gmap string value) :
  check_specific_user context kwargs = Raise (NameError "user").
Proof. reflexivity. Qed.

(** Every request of a logged-in user to an endpoint that requires login
    ends at line 123. *)
Lemma get_context_logged_in (rq : Request) (kwargs : gmap string value) :
  check_keywords kwargs = Ok tt ->
  truthy (default (VBool true) (kwargs !! "login_required")) = true ->
  truthy (session_user D rq) = true ->
  get_context str_upper D rq kwargs = Raise (NameError "user").
Proof.
  intros Hk H Hp. unfold get_context, _set_user_context. rewrite Hk. simpl.
  rewrite H. simpl. unfold getitem. rewrite lookup_insert_eq. simpl.
  by rewrite Hp.
Qed.


(** ** Viewpoint resolution *)

(** The viewer that lines 24-27 settle on. *)
Lemma _set_viewer_context_Ok (context : gmap string value)
    (url_args : gmap string string) (kwargs c1 : gmap string value) :
  _set_viewer_context D context url_args kwargs = Ok c1 ->
  exists u v,
    context !! "user" = Some (VUser u) /\
    truthy v = true /\
    c1 = <["alternate_view" := VBool (py_ne (VUser u) v)]> (<["viewer" := v]> context) /\
    (admin u = false ->
     truthy (default VNone (context !! "viewer")) = false -> v = VUser u).
Proof.
  unfold _set_viewer_context. intros H.
  bind_inv H. apply getitem_Ok in Hx.
  bind_inv H. destruct (getattr_Ok_user _ _ _ Hx0) as [u ->].
  simpl in Hx0. injection Hx0 as <-. simpl in H.
  exists u.
  destruct (admin u && contains url_args "viewer") eqn:Hv; simpl in H.
  - apply andb_true_iff in Hv as [Ha Hc].
    apply contains_true in Hc as [e He].
    unfold getitem in H. rewrite He in H. simpl in H.
    rewrite lookup_insert_eq in H. simpl in H.
    destruct (truthy (User_first D (VStr e))) eqn:Ht; simpl in H.
    + simplify_map_eq. exists (User_first D (VStr e)).
      repeat split; auto. congruence.
    + simplify_map_eq. exists (VUser u).
      rewrite insert_insert_eq. repeat split; auto.
  - unfold getitem in H.
    destruct (truthy (default VNone (context !! "viewer"))) eqn:Ht; simpl in H.
    + destruct (context !! "viewer") as [w|] eqn:Hw; simpl in *; [|discriminate].
      simplify_map_eq.
      exists w. rewrite (insert_id context "viewer" w) by done.
      repeat split; auto. intros _ Hf. congruence.
    + simplify_map_eq. exists (VUser u). repeat split; auto.
Qed.


(** ** Scope and standing resolution *)

Lemma _set_course_context_eq (context : gmap string value)
    (url_args : gmap string string) (kwargs : gmap string value) :
  _set_course_context D context url_args kwargs =
  Ok (match kwargs !! "course_id" with
      | Some i => <["course" := Course_first D i]> context
      | None => context
      end).
Proof.
  unfold _set_course_context, contains, getitem.
  by destruct (kwargs !! "course_id").
Qed.

Lemma _set_instructor_context_Ok (context : gmap string value)
    (url_args : gmap string string) (kwargs c3 : gmap string value) :
  _set_instructor_context D context url_args kwargs = Ok c3 ->
  exists v,
    context !! "viewer" = Some (VUser v) /\
    c3 = <["instructor" :=
            VBool (admin v || match course_in_scope context with
                              | Some c => teaching D v c
                              | None => false
                              end)]> context.
Proof.
  unfold _set_instructor_context, course_in_scope. intros H.
  bind_inv H. apply getitem_Ok in Hx.
  bind_inv H. destruct (getattr_Ok_user _ _ _ Hx0) as [v ->].
  simpl in Hx0. injection Hx0 as <-. simpl in H.
  exists v. split; [done|].
  destruct (admin v); simpl in *; [congruence|].
  unfold getitem in H. rewrite Hx in H. simpl in H.
  destruct (context !! "course") as [[]|]; simpl in H; cases_if H; congruence.
Qed.

Lemma _set_student_context_Ok (context : gmap string value)
    (url_args : gmap string string) (kwargs c4 : gmap string value) :
  _set_student_context D context url_args kwargs = Ok c4 ->
  c4 = <["student" :=
          VBool (match course_in_scope context, context !! "viewer" with
                 | Some c, Some (VUser v) => taking D v c
                 | _, _ => false
                 end)]> context.
Proof.
  unfold _set_student_context, course_in_scope, getitem. intros H.
  destruct (context !! "course") as [[]|]; simpl in H; cases_if H;
    destruct (context !! "viewer") as [[]|]; simpl in H; congruence.
Qed.


(** ** Role resolution *)

Lemma load_global_Role : load_global "Role" = Ok (VObject "Role").
Proof. reflexivity. Qed.

Lemma py_ne_Role (a b : Role) : py_ne (VRole a) (VRole b) = bool_decide (a ≠ b).
Proof. by destruct a, b. Qed.

Lemma Role_min_le_r (a b : Role) : Role_value (Role_min a b) <= Role_value b.
Proof. unfold Role_min. destruct (Z.ltb_spec (Role_value b) (Role_value a)); lia. Qed.

Lemma Role_min_le_l (a b : Role) : Role_value (Role_min a b) <= Role_value a.
Proof. unfold Role_min. destruct (Z.ltb_spec (Role_value b) (Role_value a)); lia. Qed.

Lemma Role_value_inj (a b : Role) : Role_value a = Role_value b -> a = b.
Proof. by destruct a, b. Qed.

Lemma _set_role_context_Ok (context : gmap string value)
    (url_args : gmap string string) (kwargs c5 : gmap string value)
    (url_args' : gmap string string) :
  _set_role_context str_upper context url_args kwargs = Ok (c5, url_args') ->
  exists v av r,
    context !! "viewer" = Some (VUser v) /\
    context !! "alternate_view" = Some av /\
    url_args' = drop_invalid_role str_upper url_args /\
    let ceiling := trueCeiling v (truthy (default VNone (context !! "instructor"))) in
    c5 = <["alternate_view" := py_or av (VBool (bool_decide (r ≠ ceiling)))]>
           (<["role" := VRole r]> (<["Role" := VObject "Role"]> context)) /\
    (ceiling = STUDENT -> r = STUDENT) /\
    (ceiling ≠ STUDENT ->
     exists r0,
       Role_getitem (str_upper (default (default_role_name ceiling)
                                        (url_args' !! "role"))) = Ok r0 /\
       r = Role_min r0 ceiling).
Proof.
  unfold _set_role_context. rewrite load_global_Role. simpl. intros H.
  bind_inv H. apply getitem_Ok in Hx. rewrite lookup_insert_ne in Hx by done.
  bind_inv H. destruct (getattr_Ok_user _ _ _ Hx0) as [v ->].
  simpl in Hx0. injection Hx0 as <-. simpl in H.
  exists v. unfold trueCeiling.
  destruct (admin v) eqn:Ha; simpl in H.
  { bind_inv H. unfold getitem in H. simplify_map_eq.
    destruct (context !! "alternate_view") as [av|] eqn:Hav; simplify_eq/=.
    exists av, (Role_min x ADMIN). rewrite py_ne_Role.
    repeat split; eauto. done. }
  rewrite (getitem_insert_ne _ "Role" "viewer") in H by done.
  rewrite (getitem_Some _ _ _ Hx) in H. simpl in H.
  destruct (faculty v) eqn:Hf; simpl in H.
  { bind_inv H. unfold getitem in H. simplify_map_eq.
    destruct (context !! "alternate_view") as [av|] eqn:Hav; simplify_eq/=.
    exists av, (Role_min x FACULTY). rewrite py_ne_Role.
    repeat split; eauto. done. }
  bind_inv H. apply getitem_Ok in Hx0. rewrite lookup_insert_ne in Hx0 by done.
  rewrite Hx0. simpl.
  destruct (truthy x) eqn:Hi; simpl in H.
  { bind_inv H. unfold getitem in H. simplify_map_eq.
    destruct (context !! "alternate_view") as [av|] eqn:Hav; simplify_eq/=.
    exists av, (Role_min x0 INSTRUCTOR). rewrite py_ne_Role.
    repeat split; eauto. done. }
  unfold getitem in H. simplify_map_eq.
  destruct (context !! "alternate_view") as [av|] eqn:Hav; simplify_eq/=.
  exists av, STUDENT. repeat split; eauto. done.
Qed.


Lemma py_ne_User (u v : User) : py_ne (VUser u) (VUser v) = bool_decide (u ≠ v).
Proof.
  unfold py_ne. simpl. destruct (decide (u = v)) as [->|Hne].
  - rewrite bool_decide_eq_true_2 by done. by rewrite bool_decide_eq_false_2 by auto.
  - rewrite bool_decide_eq_false_2 by congruence. by rewrite bool_decide_eq_true_2.
Qed.

(** ** Claims about the resolvers *)

(** C2. For a principal that is not an admin the viewer is the principal,
    whatever the request parameters hold: on the context that lines 115-116
    build, [_set_viewer_context] returns with [viewer] equal to [user] (so
    with equal emails) and [alternate_view] false. *)
Theorem non_admin_viewer_is_user (rq : Request)
    (url_args : gmap string string) (kwargs : gmap string value) (u : User) :
  session_user D rq = VUser u ->
  admin u = false ->
  exists c0 c1,
    _set_user_context D rq ∅ url_args kwargs = Ok c0 /\
    _set_viewer_context D c0 url_args kwargs = Ok c1 /\
    c1 !! "user" = Some (VUser u) /\
    c1 !! "viewer" = Some (VUser u) /\
    (v ← getitem c1 "viewer"; getattr v "email") = Ok (VStr (email u)) /\
    c1 !! "alternate_view" = Some (VBool false).
Proof.
  intros Hu Ha. unfold _set_user_context. rewrite Hu.
  exists (<["user" := VUser u]> ∅),
    (<["alternate_view" := VBool false]>
       (<["viewer" := VUser u]> (<["user" := VUser u]> ∅))).
  split; [reflexivity|]. split.
  2: { unfold getitem. simplify_map_eq. done. }
  unfold _set_viewer_context.
  rewrite getitem_insert_eq. simpl. rewrite Ha. simpl.
  rewrite lookup_insert_ne, lookup_empty by done. simpl.
  rewrite getitem_insert_eq. simpl.
  rewrite (getitem_insert_ne _ "viewer" "user") by done.
  rewrite !getitem_insert_eq. simpl. rewrite py_ne_User.
  by rewrite bool_decide_eq_false_2 by auto.
Qed.

(** C3. Whenever role resolution completes, the effective role is at most
    the viewer's ceiling: at most ADMIN for an admin, else at most FACULTY
    for faculty, else at most INSTRUCTOR with instructor standing, else
    exactly STUDENT, whatever the [role] parameter says. *)
Theorem effective_role_le_ceiling (context : gmap string value)
    (url_args : gmap string string) (kwargs c5 : gmap string value)
    (url_args' : gmap string string) :
  _set_role_context str_upper context url_args kwargs = Ok (c5, url_args') ->
  exists v r,
    c5 !! "viewer" = Some (VUser v) /\
    c5 !! "role" = Some (VRole r) /\
    let instructor := truthy (default VNone (c5 !! "instructor")) in
    Role_value r <= Role_value (trueCeiling v instructor) /\
    (admin v = true -> Role_value r <= Role_value ADMIN) /\
    (admin v = false -> faculty v = true -> Role_value r <= Role_value FACULTY) /\
    (admin v = false -> faculty v = false -> instructor = true ->
     Role_value r <= Role_value INSTRUCTOR) /\
    (admin v = false -> faculty v = false -> instructor = false -> r = STUDENT).
Proof.
  intros H. apply _set_role_context_Ok in H.
  destruct H as (v & av & r & Hv & Hav & -> & -> & Hs & Hn).
  exists v, r. simplify_map_eq. split; [done|]. split; [done|].
  set (i := truthy (default VNone (context !! "instructor"))) in *.
  assert (Hle : Role_value r <= Role_value (trueCeiling v i)).
  { destruct (decide (trueCeiling v i = STUDENT)) as [He|He].
    - rewrite (Hs He), He. done.
    - destruct (Hn He) as (r0 & _ & ->). apply Role_min_le_r. }
  split; [done|].
  unfold trueCeiling in *.
  repeat split; intros; repeat match goal with E : _ = _ |- _ => rewrite E in * end;
    auto.
Qed.


(** Each resolver leaves the other keys of the context alone. *)
Lemma _set_course_context_frame (c c' : gmap string value)
    (url_args : gmap string string) (kwargs : gmap string value) (k : string) :
  _set_course_context D c url_args kwargs = Ok c' ->
  k ≠ "course" -> c' !! k = c !! k.
Proof.
  rewrite _set_course_context_eq. intros [= <-] Hk.
  destruct (kwargs !! "course_id"); [by rewrite lookup_insert_ne|done].
Qed.

Lemma _set_instructor_context_frame (c c' : gmap string value)
    (url_args : gmap string string) (kwargs : gmap string value) (k : string) :
  _set_instructor_context D c url_args kwargs = Ok c' ->
  k ≠ "instructor" -> c' !! k = c !! k.
Proof.
  intros H Hk. apply _set_instructor_context_Ok in H as (v & _ & ->).
  by rewrite lookup_insert_ne.
Qed.

Lemma _set_student_context_frame (c c' : gmap string value)
    (url_args : gmap string string) (kwargs : gmap string value) (k : string) :
  _set_student_context D c url_args kwargs = Ok c' ->
  k ≠ "student" -> c' !! k = c !! k.
Proof.
  intros H Hk. apply _set_student_context_Ok in H as ->.
  by rewrite lookup_insert_ne.
Qed.

Lemma py_or_bool (a b : bool) : py_or (VBool a) (VBool b) = VBool (a || b).
Proof. by destruct a. Qed.

(** C4. After the resolvers of lines 126-132 have run, [alternate_view] is
    true exactly when the viewer is not the principal or the effective role
    is not the viewer's ceiling. *)
Theorem alternate_view_iff (c0 : gmap string value)
    (url_args : gmap string string) (kwargs c1 c2 c3 c4 c5 : gmap string value)
    (url_args' : gmap string string) :
  _set_viewer_context D c0 url_args kwargs = Ok c1 ->
  _set_course_context D c1 url_args kwargs = Ok c2 ->
  _set_instructor_context D c2 url_args kwargs = Ok c3 ->
  _set_student_context D c3 url_args kwargs = Ok c4 ->
  _set_role_context str_upper c4 url_args kwargs = Ok (c5, url_args') ->
  exists u v r i b,
    c5 !! "user" = Some (VUser u) /\
    c5 !! "viewer" = Some (VUser v) /\
    c5 !! "instructor" = Some (VBool i) /\
    c5 !! "role" = Some (VRole r) /\
    c5 !! "alternate_view" = Some (VBool b) /\
    (b = true <-> v ≠ u \/ r ≠ trueCeiling v i).
Proof.
  intros H1 H2 H3 H4 H5.
  apply _set_viewer_context_Ok in H1 as (u & w & Hu & _ & -> & _).
  pose proof (_set_course_context_frame _ _ _ _ "user" H2 ltac:(done)) as Hu2.
  pose proof (_set_course_context_frame _ _ _ _ "viewer" H2 ltac:(done)) as Hv2.
  pose proof (_set_course_context_frame _ _ _ _ "alternate_view" H2 ltac:(done)) as Ha2.
  pose proof (_set_instructor_context_frame _ _ _ _ "user" H3 ltac:(done)) as Hu3.
  pose proof (_set_instructor_context_frame _ _ _ _ "viewer" H3 ltac:(done)) as Hv3.
  pose proof (_set_instructor_context_frame _ _ _ _ "alternate_view" H3 ltac:(done)) as Ha3.
  pose proof (_set_student_context_frame _ _ _ _ "user" H4 ltac:(done)) as Hu4.
  pose proof (_set_student_context_frame _ _ _ _ "viewer" H4 ltac:(done)) as Hv4.
  pose proof (_set_student_context_frame _ _ _ _ "alternate_view" H4 ltac:(done)) as Ha4.
  pose proof (_set_student_context_frame _ _ _ _ "instructor" H4 ltac:(done)) as Hi4.
  apply _set_instructor_context_Ok in H3 as (v & Hv & Hc3).
  match type of Hc3 with _ = <[_ := VBool ?e]> _ => set (i := e) in * end.
  rewrite Hc3, lookup_insert_eq in Hi4.
  apply _set_role_context_Ok in H5 as (v' & av & r & Hv' & Hav & _ & -> & _).
  rewrite Hv4, Hv3, Hv in Hv'. injection Hv' as <-.
  rewrite Hv2, lookup_insert_ne, lookup_insert_eq in Hv by done.
  injection Hv as ->.
  rewrite Ha4, Ha3, Ha2, lookup_insert_eq, py_ne_User in Hav. injection Hav as <-.
  rewrite Hi4. simpl. rewrite py_or_bool.
  exists u, v, r, i, (bool_decide (u ≠ v) || bool_decide (r ≠ trueCeiling v i)).
  rewrite lookup_insert_eq.
  rewrite !(lookup_insert_ne _ _ "user"), !(lookup_insert_ne _ _ "viewer"),
    !(lookup_insert_ne _ _ "instructor") by done.
  rewrite (lookup_insert_ne _ "alternate_view" "role"), lookup_insert_eq by done.
  rewrite Hu4, Hu3, Hu2, Hv4, Hv3, Hv2, Hi4.
  rewrite (lookup_insert_ne _ _ "user"), (lookup_insert_ne _ _ "user") by done.
  rewrite (lookup_insert_ne _ _ "viewer"), lookup_insert_eq by done.
  repeat split; try done.
  - intros Hb. apply orb_true_iff in Hb as [Hb|Hb]; apply bool_decide_eq_true in Hb; auto.
  - intros [Hb|Hb]; apply orb_true_iff; [left|right]; apply bool_decide_eq_true; auto.
Qed.


(** C5. Standing resolution: an admin viewer is an instructor with or
    without a course in scope; another viewer is an instructor exactly when
    teaching the course in scope, and not without one; [student] is
    [taking] of the course in scope and false without one, admin or not. An
    admin who neither teaches nor takes the course in scope gets
    [instructor] true, [student] false, and passes the check of line 130. *)
Theorem standing_resolution (context : gmap string value)
    (url_args : gmap string string) (kwargs : gmap string value) (v : User) :
  context !! "viewer" = Some (VUser v) ->
  (admin v = true ->
   _set_instructor_context D context url_args kwargs =
   Ok (<["instructor" := VBool true]> context)) /\
  (admin v = false -> forall c, context !! "course" = Some (VCourse c) ->
   _set_instructor_context D context url_args kwargs =
   Ok (<["instructor" := VBool (teaching D v c)]> context)) /\
  (admin v = false -> truthy (default VNone (context !! "course")) = false ->
   _set_instructor_context D context url_args kwargs =
   Ok (<["instructor" := VBool false]> context)) /\
  (forall c, context !! "course" = Some (VCourse c) ->
   _set_student_context D context url_args kwargs =
   Ok (<["student" := VBool (taking D v c)]> context)) /\
  (truthy (default VNone (context !! "course")) = false ->
   _set_student_context D context url_args kwargs =
   Ok (<["student" := VBool false]> context)) /\
  (admin v = true -> forall c, context !! "course" = Some (VCourse c) ->
   teaching D v c = false -> taking D v c = false ->
   exists c4,
     (c3 ← _set_instructor_context D context url_args kwargs;
      _set_student_context D c3 url_args kwargs) = Ok c4 /\
     c4 !! "instructor" = Some (VBool true) /\
     c4 !! "student" = Some (VBool false) /\
     check_standing c4 = Ok tt).
Proof.
  intros Hv.
  assert (Hi : admin v = true ->
    _set_instructor_context D context url_args kwargs =
    Ok (<["instructor" := VBool true]> context)).
  { intros Ha. unfold _set_instructor_context.
    rewrite (getitem_Some _ _ _ Hv). simpl. by rewrite Ha. }
  assert (Hs : forall (ctx : gmap string value) c,
    ctx !! "viewer" = Some (VUser v) -> ctx !! "course" = Some (VCourse c) ->
    _set_student_context D ctx url_args kwargs =
    Ok (<["student" := VBool (taking D v c)]> ctx)).
  { intros ctx c Hw Hc. unfold _set_student_context, getitem.
    rewrite Hc. simpl. by rewrite Hw. }
  split; [done|]. split; [|split; [|split; [|split]]].
  - intros Ha c Hc. unfold _set_instructor_context, getitem.
    rewrite Hv. simpl. by rewrite Ha, Hc.
  - intros Ha Hc. unfold _set_instructor_context.
    rewrite (getitem_Some _ _ _ Hv). simpl. by rewrite Ha, Hc.
  - intros c Hc. by apply Hs.
  - intros Hc. unfold _set_student_context. by rewrite Hc.
  - intros Ha c Hc Ht Hk. rewrite (Hi Ha). simpl.
    rewrite (Hs _ c) by (by rewrite lookup_insert_ne).
    rewrite Hk. eexists. split; [reflexivity|].
    rewrite lookup_insert_eq, lookup_insert_ne, lookup_insert_eq by done.
    repeat split. unfold check_standing.
    rewrite (getitem_insert_ne _ "student" "instructor") by done.
    rewrite (getitem_insert_eq _ "instructor"). reflexivity.
Qed.

(** ** Parsing of the [role] parameter *)

Lemma upper_lower_char (c : ascii) : upper_char (lower_char c) = upper_char c.
Proof. by destruct c as [[] [] [] [] [] [] [] []]. Qed.

Lemma upper_upper_char (c : ascii) : upper_char (upper_char c) = upper_char c.
Proof. by destruct c as [[] [] [] [] [] [] [] []]. Qed.

Lemma ascii_upper_lower (s : string) : ascii_upper (ascii_lower s) = ascii_upper s.
Proof. induction s as [|c s IH]; simpl; [done|]. by rewrite upper_lower_char, IH. Qed.

Lemma ascii_upper_upper (s : string) : ascii_upper (ascii_upper s) = ascii_upper s.
Proof. induction s as [|c s IH]; simpl; [done|]. by rewrite upper_upper_char, IH. Qed.

Lemma is_ascii_lower_char (c : ascii) :
  (N_of_ascii (lower_char c) <? 128)%N = (N_of_ascii c <? 128)%N.
Proof. by destruct c as [[] [] [] [] [] [] [] []]. Qed.

Lemma is_ascii_upper_char (c : ascii) :
  (N_of_ascii (upper_char c) <? 128)%N = (N_of_ascii c <? 128)%N.
Proof. by destruct c as [[] [] [] [] [] [] [] []]. Qed.

Lemma is_ascii_lower (s : string) : is_ascii (ascii_lower s) = is_ascii s.
Proof. induction s as [|c s IH]; simpl; [done|]. by rewrite is_ascii_lower_char, IH. Qed.

Lemma is_ascii_upper (s : string) : is_ascii (ascii_upper s) = is_ascii s.
Proof. induction s as [|c s IH]; simpl; [done|]. by rewrite is_ascii_upper_char, IH. Qed.


Lemma Role_getitem_member (name : string) :
  in_Role_members name = true -> exists r, Role_getitem name = Ok r.
Proof.
  unfold in_Role_members, Role_getitem.
  destruct (assoc name Role_members); [eauto|discriminate].
Qed.

Lemma drop_invalid_role_lookup (url_args : gmap string string) (s : string) :
  drop_invalid_role str_upper url_args !! "role" = Some s ->
  url_args !! "role" = Some s /\ in_Role_members (str_upper s) = true.
Proof.
  unfold drop_invalid_role.
  destruct (url_args !! "role") as [t|] eqn:Ht; [|congruence].
  destruct (in_Role_members (str_upper t)) eqn:Hm; simpl.
  - rewrite Ht. intros [= <-]. done.
  - by rewrite lookup_delete_eq.
Qed.

Lemma drop_invalid_role_unparseable (url_args : gmap string string) (s : string) :
  url_args !! "role" = Some s ->
  in_Role_members (str_upper s) = false ->
  drop_invalid_role str_upper url_args = delete "role" url_args.
Proof. intros Hs Hm. unfold drop_invalid_role. by rewrite Hs, Hm. Qed.

Lemma drop_invalid_role_absent (url_args : gmap string string) :
  url_args !! "role" = None ->
  drop_invalid_role str_upper url_args = url_args.
Proof. intros Hs. unfold drop_invalid_role. by rewrite Hs. Qed.

(** [_set_role_context] reads [url_args] only through the upper-cased
    [role] left after line 57. *)
Lemma _set_role_context_ext (context : gmap string value)
    (url1 url2 : gmap string string) (kwargs : gmap string value) :
  (forall d, str_upper (default d (drop_invalid_role str_upper url1 !! "role")) =
             str_upper (default d (drop_invalid_role str_upper url2 !! "role"))) ->
  context_of (_set_role_context str_upper context url1 kwargs) =
  context_of (_set_role_context str_upper context url2 kwargs).
Proof.
  intros Hd. unfold _set_role_context. rewrite load_global_Role. simpl.
  repeat first
    [ rewrite Hd
    | match goal with
      | |- context_of (?m ≫= _) = context_of (?m ≫= _) =>
          destruct m; simpl; [|reflexivity]
      | |- context_of (if ?b then _ else _) = _ => destruct b
      end ];
  reflexivity.
Qed.

Section Parsing.

(** On ASCII text [str.upper] is [ascii_upper]. *)
Hypothesis str_upper_ascii :
  forall s, is_ascii s = true -> str_upper s = ascii_upper s.

Lemma Role_getitem_default (ceiling : Role) :
  Role_getitem (str_upper (default_role_name ceiling)) = Ok ceiling.
Proof.
  rewrite str_upper_ascii by (by destruct ceiling). by destruct ceiling.
Qed.

(** The lookups of lines 60, 66 and 72 find a member. *)
Lemma Role_getitem_requested (url_args : gmap string string) (ceiling : Role) :
  exists r,
    Role_getitem (str_upper (default (default_role_name ceiling)
      (drop_invalid_role str_upper url_args !! "role"))) = Ok r /\
    (drop_invalid_role str_upper url_args !! "role" = None -> r = ceiling).
Proof.
  destruct (drop_invalid_role str_upper url_args !! "role") as [s|] eqn:Hs; simpl.
  - apply drop_invalid_role_lookup in Hs as [_ Hm].
    destruct (Role_getitem_member _ Hm) as [r Hr]. exists r. split; [done|]. done.
  - exists ceiling. split; [apply Role_getitem_default|done].
Qed.

(** Role resolution returns on every context that holds a viewer, the
    standing and the flag, whatever the request parameters are. *)
Lemma _set_role_context_total (context : gmap string value)
    (url_args : gmap string string) (kwargs : gmap string value)
    (v : User) (i av : value) :
  context !! "viewer" = Some (VUser v) ->
  context !! "instructor" = Some i ->
  context !! "alternate_view" = Some av ->
  exists c5 r,
    _set_role_context str_upper context url_args kwargs =
      Ok (c5, drop_invalid_role str_upper url_args) /\
    c5 !! "role" = Some (VRole r) /\
    (drop_invalid_role str_upper url_args !! "role" = None ->
     r = trueCeiling v (truthy i)).
Proof.
  intros Hv Hi Hav. unfold _set_role_context, trueCeiling, getitem.
  rewrite load_global_Role. simplify_map_eq/=.
  destruct (admin v); simplify_map_eq/=.
  { destruct (Role_getitem_requested url_args ADMIN) as (r & Hr0 & Hr).
    simpl in Hr0. rewrite Hr0. simplify_map_eq/=.
    eexists _, _. split; [reflexivity|]. simplify_map_eq/=.
    split; [done|]. intros Hn. by rewrite (Hr Hn). }
  destruct (faculty v); simplify_map_eq/=.
  { destruct (Role_getitem_requested url_args FACULTY) as (r & Hr0 & Hr).
    simpl in Hr0. rewrite Hr0. simplify_map_eq/=.
    eexists _, _. split; [reflexivity|]. simplify_map_eq/=.
    split; [done|]. intros Hn. by rewrite (Hr Hn). }
  destruct (truthy i); simplify_map_eq/=.
  { destruct (Role_getitem_requested url_args INSTRUCTOR) as (r & Hr0 & Hr).
    simpl in Hr0. rewrite Hr0. simplify_map_eq/=.
    eexists _, _. split; [reflexivity|]. simplify_map_eq/=.
    split; [done|]. intros Hn. by rewrite (Hr Hn). }
  eexists _, _. split; [reflexivity|]. by simplify_map_eq/=.
Qed.

End Parsing.


End Properties.

(** ** Determinism *)

Lemma bind_ext {A B} (m : result A) (f g : A -> result B) :
  (forall a, f a = g a) -> m ≫= f = m ≫= g.
Proof. intros H. destruct m; simpl; auto. Qed.

Section Determinism.

Variable str_upper : string -> string.
Variables D1 D2 : DataAccess.

(** The two stores answer every query alike. *)
Hypothesis same_users : forall e, user_by_email D1 e = user_by_email D2 e.
Hypothesis same_courses : forall i, course_by_id D1 i = course_by_id D2 i.
Hypothesis same_teaching : forall u c, teaching D1 u c = teaching D2 u c.
Hypothesis same_taking : forall u c, taking D1 u c = taking D2 u c.

Lemma User_first_same (e : value) : User_first D1 e = User_first D2 e.
Proof. unfold User_first. by rewrite same_users. Qed.

Lemma Course_first_same (i : value) : Course_first D1 i = Course_first D2 i.
Proof. unfold Course_first. by rewrite same_courses. Qed.

Lemma call_teaching_same (v c : value) : call_teaching D1 v c = call_teaching D2 v c.
Proof. destruct v, c; simpl; try done. by rewrite same_teaching. Qed.

Lemma call_taking_same (v c : value) : call_taking D1 v c = call_taking D2 v c.
Proof. destruct v, c; simpl; try done. by rewrite same_taking. Qed.

Lemma _set_user_context_same (rq : Request) (context : gmap string value)
    (url_args : gmap string string) (kwargs : gmap string value) :
  _set_user_context D1 rq context url_args kwargs =
  _set_user_context D2 rq context url_args kwargs.
Proof. unfold _set_user_context, session_user. by rewrite User_first_same. Qed.

Lemma _set_viewer_context_same (context : gmap string value)
    (url_args : gmap string string) (kwargs : gmap string value) :
  _set_viewer_context D1 context url_args kwargs =
  _set_viewer_context D2 context url_args kwargs.
Proof.
  unfold _set_viewer_context.
  apply bind_ext; intros u. apply bind_ext; intros a.
  destruct (truthy a && contains url_args "viewer"); [|reflexivity].
  destruct (getitem url_args "viewer") as [e|]; [|reflexivity].
  simpl. by rewrite User_first_same.
Qed.

Lemma _set_course_context_same (context : gmap string value)
    (url_args : gmap string string) (kwargs : gmap string value) :
  _set_course_context D1 context url_args kwargs =
  _set_course_context D2 context url_args kwargs.
Proof.
  unfold _set_course_context. destruct (contains kwargs "course_id"); [|reflexivity].
  apply bind_ext; intros i. by rewrite Course_first_same.
Qed.

Lemma _set_instructor_context_same (context : gmap string value)
    (url_args : gmap string string) (kwargs : gmap string value) :
  _set_instructor_context D1 context url_args kwargs =
  _set_instructor_context D2 context url_args kwargs.
Proof.
  unfold _set_instructor_context.
  apply bind_ext; intros v. apply bind_ext; intros a.
  destruct (truthy a); [reflexivity|].
  destruct (truthy _); [|reflexivity].
  apply bind_ext; intros v'. apply bind_ext; intros c.
  by rewrite call_teaching_same.
Qed.

Lemma _set_student_context_same (context : gmap string value)
    (url_args : gmap string string) (kwargs : gmap string value) :
  _set_student_context D1 context url_args kwargs =
  _set_student_context D2 context url_args kwargs.
Proof.
  unfold _set_student_context.
  destruct (truthy _); [|reflexivity].
  apply bind_ext; intros v'. apply bind_ext; intros c.
  by rewrite call_taking_same.
Qed.

Lemma resolve_from_viewer_same (context : gmap string value)
    (url_args : gmap string string) (kwargs : gmap string value) :
  resolve_from_viewer str_upper D1 context url_args kwargs =
  resolve_from_viewer str_upper D2 context url_args kwargs.
Proof.
  unfold resolve_from_viewer.
  rewrite _set_viewer_context_same. apply bind_ext; intros c1.
  rewrite _set_course_context_same. apply bind_ext; intros c2.
  rewrite _set_instructor_context_same. apply bind_ext; intros c3.
  rewrite _set_student_context_same. reflexivity.
Qed.

(** [get_context] reads the stored data through the four queries only. *)
Lemma get_context_same (rq : Request) (kwargs : gmap string value) :
  get_context str_upper D1 rq kwargs = get_context str_upper D2 rq kwargs.
Proof.
  unfold get_context. apply bind_ext; intros _.
  rewrite _set_user_context_same.
  apply bind_ext; intros c.
  destruct (negb _); [reflexivity|].
  apply bind_ext; intros u. apply bind_ext; intros _. apply bind_ext; intros _.
  apply resolve_from_viewer_same.
Qed.

End Determinism.

(** ** The access check [get_context] as a whole *)

Section AccessCheck.

Variable str_upper : string -> string.
Variable D : DataAccess.

(** C9, as the code has it. With [login_required] set to false and no
    endpoint argument called [context] or [url_args], [get_context] returns
    right after line 116, for every session and every request parameter: the
    context holds the key [user] (a user or [None]) and no other key, and no
    check is made. *)
Theorem login_not_required_returns_principal (rq : Request)
    (kwargs : gmap string value) :
  kwargs !! "login_required" = Some (VBool false) ->
  kwargs !! "context" = None ->
  kwargs !! "url_args" = None ->
  exists context,
    get_context str_upper D rq kwargs = Ok context /\
    context !! "user" = Some (session_user D rq) /\
    (session_user D rq = VNone \/ exists u, session_user D rq = VUser u) /\
    forall k, k ≠ "user" -> context !! k = None.
Proof.
  intros H Hc Hu. exists {["user" := session_user D rq]}.
  split; [|split; [|split]].
  - apply get_context_login_not_required; [by apply check_keywords_Ok|].
    by rewrite H.
  - apply lookup_singleton_eq.
  - unfold session_user, User_first. destruct (user_by_email D _); eauto.
  - intros k Hk. by apply lookup_singleton_ne.
Qed.

(** Lines 126-129 read [url_args] at [viewer] and [kwargs] at [course_id]
    only, so a [role] parameter or a [min_role] argument changes nothing
    before the check for standing. *)
Lemma _set_viewer_context_role (context : gmap string value)
    (url_args : gmap string string) (kwargs kwargs' : gmap string value)
    (s : string) :
  _set_viewer_context D context (<["role" := s]> url_args) kwargs' =
  _set_viewer_context D context url_args kwargs.
Proof.
  unfold _set_viewer_context, contains, getitem.
  by rewrite !(lookup_insert_ne _ "role" "viewer").
Qed.

Lemma _set_course_context_min_role (context : gmap string value)
    (url_args url_args' : gmap string string) (kwargs : gmap string value)
    (m : value) :
  _set_course_context D context url_args' (<["min_role" := m]> kwargs) =
  _set_course_context D context url_args kwargs.
Proof.
  unfold _set_course_context, contains, getitem.
  by rewrite !(lookup_insert_ne _ "min_role" "course_id").
Qed.

(** Lines 126-135 on their own: a viewer without standing is stopped with
    403 at line 131, before line 132 computes a role, whatever the [role]
    parameter and the [min_role] argument are. *)
Lemma resolve_from_viewer_no_standing (context : gmap string value)
    (url_args : gmap string string) (kwargs c4 : gmap string value)
    (s : string) (m : value) :
  (c1 ← _set_viewer_context D context url_args kwargs;
   c2 ← _set_course_context D c1 url_args kwargs;
   c3 ← _set_instructor_context D c2 url_args kwargs;
   _set_student_context D c3 url_args kwargs) = Ok c4 ->
  check_standing c4 = abort 403 ->
  resolve_from_viewer str_upper D context url_args kwargs = abort 403 /\
  resolve_from_viewer str_upper D context (<["role" := s]> url_args)
    (<["min_role" := m]> kwargs) = abort 403.
Proof.
  intros H Hs.
  bind_inv H. bind_inv H. bind_inv H.
  unfold resolve_from_viewer. split.
  - rewrite Hx. simpl. rewrite Hx0. simpl. rewrite Hx1. simpl. rewrite H. simpl.
    by rewrite Hs.
  - rewrite (_set_viewer_context_role _ url_args kwargs), Hx. simpl.
    rewrite (_set_course_context_min_role _ url_args), Hx0. simpl.
    unfold _set_instructor_context in *. rewrite Hx1. simpl.
    unfold _set_student_context in *. rewrite H. simpl.
    by rewrite Hs.
Qed.

(** Lines 126-135 on their own: without a course identifier a viewer who is
    not an admin has no standing and is stopped with 403. *)
Lemma resolve_from_viewer_no_course (context : gmap string value)
    (url_args : gmap string string) (kwargs c1 : gmap string value) (v : User) :
  context !! "course" = None ->
  kwargs !! "course_id" = None ->
  _set_viewer_context D context url_args kwargs = Ok c1 ->
  c1 !! "viewer" = Some (VUser v) ->
  admin v = false ->
  resolve_from_viewer str_upper D context url_args kwargs = abort 403.
Proof.
  intros Hc Hk H1 Hv Ha. unfold resolve_from_viewer. rewrite H1. simpl.
  rewrite _set_course_context_eq, Hk. simpl.
  assert (Hc1 : c1 !! "course" = None).
  { apply _set_viewer_context_Ok in H1 as (u & w & _ & _ & -> & _).
    by rewrite !lookup_insert_ne. }
  unfold _set_instructor_context, _set_student_context, getitem.
  rewrite Hv. simpl. rewrite Ha, Hc1. simpl.
  rewrite lookup_insert_ne, Hc1 by done. simpl.
  unfold check_standing, getitem. by simplify_map_eq.
Qed.

End AccessCheck.

(** ** The defect of line 123, on the sample data *)

(** C1. The check for the specific user is meant to stop, with 403, a
    principal who is not an admin and whose id is not the configured one, and
    to let the others through. Line 123 reads [user.admin] where no name
    [user] is bound, so [get_context] raises [NameError] instead: for carol
    (id 3) on an endpoint for user 1, where 403 is due, and for carol on an
    endpoint for user 3 and for the admin alice, who should both pass. *)
Theorem specific_user_check_raises_NameError :
  get_context ascii_upper Sample.data (Sample.request_of "carol@x.edu" [])
    {["user" := VInt 1]} = Raise (NameError "user") /\
  get_context ascii_upper Sample.data (Sample.request_of "carol@x.edu" [])
    {["user" := VInt 3]} = Raise (NameError "user") /\
  get_context ascii_upper Sample.data (Sample.request_of "alice@x.edu" [])
    {["user" := VInt 3]} = Raise (NameError "user").
Proof. repeat split; apply get_context_logged_in; reflexivity. Qed.

(** C6. bob has no standing in course 7. Lines 126-135 on their own stop him
    with 403 before any role is computed, with or without [role] and
    [min_role]; [get_context] never gets there and raises [NameError] at
    line 123, whatever [role] and [min_role] are. *)
Theorem no_standing_raises_NameError :
  get_context ascii_upper Sample.data
    (Sample.request_of "bob@x.edu" [("role", "student")])
    {["course_id" := VInt 7; "min_role" := VStr "instructor"]}
    = Raise (NameError "user") /\
  get_context ascii_upper Sample.data (Sample.request_of "bob@x.edu" [])
    {["course_id" := VInt 7]} = Raise (NameError "user") /\
  resolve_from_viewer ascii_upper Sample.data {["user" := VUser Sample.bob]}
    {["role" := "student"]}
    {["course_id" := VInt 7; "min_role" := VStr "instructor"]} = abort 403.
Proof.
  split; [|split].
  - apply get_context_logged_in; reflexivity.
  - apply get_context_logged_in; reflexivity.
  - vm_compute. reflexivity.
Qed.

(** C10. carol is no admin and the endpoint names no course. Lines 126-135
    on their own stop her with 403 at the check for standing; [get_context]
    never gets there and raises [NameError] at line 123. *)
Theorem no_course_raises_NameError :
  get_context ascii_upper Sample.data (Sample.request_of "carol@x.edu" []) ∅
    = Raise (NameError "user") /\
  resolve_from_viewer ascii_upper Sample.data {["user" := VUser Sample.carol]} ∅ ∅
    = abort 403.
Proof.
  split.
  - apply get_context_logged_in; reflexivity.
  - vm_compute. reflexivity.
Qed.

(** ** The theorems at concrete requests *)

Lemma non_admin_viewer_is_user_witness :
  session_user Sample.data (Sample.request_of "carol@x.edu" [("viewer", "alice@x.edu")])
    = VUser Sample.carol /\
  admin Sample.carol = false /\
  exists c0 c1,
    _set_user_context Sample.data
      (Sample.request_of "carol@x.edu" [("viewer", "alice@x.edu")]) ∅
      {["viewer" := "alice@x.edu"]} ∅ = Ok c0 /\
    _set_viewer_context Sample.data c0 {["viewer" := "alice@x.edu"]} ∅ = Ok c1 /\
    c1 !! "user" = Some (VUser Sample.carol) /\
    c1 !! "viewer" = Some (VUser Sample.carol) /\
    (v ← getitem c1 "viewer"; getattr v "email") = Ok (VStr (email Sample.carol)) /\
    c1 !! "alternate_view" = Some (VBool false).
Proof.
  split; [reflexivity|]. split; [reflexivity|].
  apply (non_admin_viewer_is_user Sample.data
           (Sample.request_of "carol@x.edu" [("viewer", "alice@x.edu")])
           {["viewer" := "alice@x.edu"]} ∅ Sample.carol); reflexivity.
Defined.

(** The context of carol, who teaches course 7, before role resolution. *)
Lemma effective_role_le_ceiling_witness :
  let context : gmap string value :=
    {["user" := VUser Sample.carol; "viewer" := VUser Sample.carol;
      "alternate_view" := VBool false; "instructor" := VBool true;
      "student" := VBool false]} in
  let c5 : gmap string value :=
    <["alternate_view" := VBool false]>
      (<["role" := VRole INSTRUCTOR]> (<["Role" := VObject "Role"]> context)) in
  _set_role_context ascii_upper context {["role" := "Admin"]} ∅ =
    Ok (c5, {["role" := "Admin"]}) /\
  exists v r,
    c5 !! "viewer" = Some (VUser v) /\
    c5 !! "role" = Some (VRole r) /\
    let instructor := truthy (default VNone (c5 !! "instructor")) in
    Role_value r <= Role_value (trueCeiling v instructor) /\
    (admin v = true -> Role_value r <= Role_value ADMIN) /\
    (admin v = false -> faculty v = true -> Role_value r <= Role_value FACULTY) /\
    (admin v = false -> faculty v = false -> instructor = true ->
     Role_value r <= Role_value INSTRUCTOR) /\
    (admin v = false -> faculty v = false -> instructor = false -> r = STUDENT).
Proof.
  intros context c5.
  assert (H : _set_role_context ascii_upper context {["role" := "Admin"]} ∅ =
              Ok (c5, {["role" := "Admin"]})) by (vm_compute; reflexivity).
  split; [exact H|].
  exact (effective_role_le_ceiling ascii_upper context {["role" := "Admin"]} ∅ c5
           {["role" := "Admin"]} H).
Defined.

(** The admin alice looks at course 7 as carol, who teaches it, in the role
    of a student. *)
Lemma alternate_view_iff_witness :
  let url_args : gmap string string :=
    {["viewer" := "carol@x.edu"; "role" := "student"]} in
  let kwargs : gmap string value := {["course_id" := VInt 7]} in
  let c0 : gmap string value := {["user" := VUser Sample.alice]} in
  let c1 := <["alternate_view" := VBool true]> (<["viewer" := VUser Sample.carol]> c0) in
  let c2 := <["course" := VCourse Sample.course7]> c1 in
  let c3 := <["instructor" := VBool true]> c2 in
  let c4 := <["student" := VBool false]> c3 in
  let c5 := <["alternate_view" := VBool true]>
              (<["role" := VRole STUDENT]> (<["Role" := VObject "Role"]> c4)) in
  _set_viewer_context Sample.data c0 url_args kwargs = Ok c1 /\
  _set_course_context Sample.data c1 url_args kwargs = Ok c2 /\
  _set_instructor_context Sample.data c2 url_args kwargs = Ok c3 /\
  _set_student_context Sample.data c3 url_args kwargs = Ok c4 /\
  _set_role_context ascii_upper c4 url_args kwargs = Ok (c5, url_args) /\
  exists u v r i b,
    c5 !! "user" = Some (VUser u) /\
    c5 !! "viewer" = Some (VUser v) /\
    c5 !! "instructor" = Some (VBool i) /\
    c5 !! "role" = Some (VRole r) /\
    c5 !! "alternate_view" = Some (VBool b) /\
    (b = true <-> v ≠ u \/ r ≠ trueCeiling v i).
Proof.
  intros url_args kwargs c0 c1 c2 c3 c4 c5.
  assert (H1 : _set_viewer_context Sample.data c0 url_args kwargs = Ok c1)
    by (vm_compute; reflexivity).
  assert (H2 : _set_course_context Sample.data c1 url_args kwargs = Ok c2)
    by (vm_compute; reflexivity).
  assert (H3 : _set_instructor_context Sample.data c2 url_args kwargs = Ok c3)
    by (vm_compute; reflexivity).
  assert (H4 : _set_student_context Sample.data c3 url_args kwargs = Ok c4)
    by (vm_compute; reflexivity).
  assert (H5 : _set_role_context ascii_upper c4 url_args kwargs = Ok (c5, url_args))
    by (vm_compute; reflexivity).
  repeat (split; [assumption|]).
  exact (alternate_view_iff ascii_upper Sample.data c0 url_args kwargs
           c1 c2 c3 c4 c5 url_args H1 H2 H3 H4 H5).
Defined.

(** The admin alice on course 7, which she neither teaches nor takes. *)
Lemma standing_resolution_witness :
  let context : gmap string value :=
    {["viewer" := VUser Sample.alice; "course" := VCourse Sample.course7]} in
  context !! "viewer" = Some (VUser Sample.alice) /\
  admin Sample.alice = true /\
  context !! "course" = Some (VCourse Sample.course7) /\
  teaching Sample.data Sample.alice Sample.course7 = false /\
  taking Sample.data Sample.alice Sample.course7 = false /\
  exists c4,
    (c3 ← _set_instructor_context Sample.data context ∅ ∅;
     _set_student_context Sample.data c3 ∅ ∅) = Ok c4 /\
    c4 !! "instructor" = Some (VBool true) /\
    c4 !! "student" = Some (VBool false) /\
    check_standing c4 = Ok tt.
Proof.
  intros context.
  assert (Hv : context !! "viewer" = Some (VUser Sample.alice)) by reflexivity.
  assert (Hc : context !! "course" = Some (VCourse Sample.course7)) by reflexivity.
  repeat (split; [reflexivity|]).
  destruct (standing_resolution Sample.data context ∅ ∅ Sample.alice Hv)
    as (_ & _ & _ & _ & _ & H).
  exact (H eq_refl Sample.course7 Hc eq_refl eq_refl).
Defined.

(** A visitor without an account on an endpoint that needs no login. *)
Lemma login_not_required_returns_principal_witness :
  let rq := Sample.request_of "nobody@x.edu" [("viewer", "alice@x.edu")] in
  let kwargs : gmap string value :=
    {["login_required" := VBool false; "user" := VInt 1;
      "min_role" := VStr "admin"]} in
  kwargs !! "login_required" = Some (VBool false) /\
  kwargs !! "context" = None /\
  kwargs !! "url_args" = None /\
  exists context,
    get_context ascii_upper Sample.data rq kwargs = Ok context /\
    context !! "user" = Some (session_user Sample.data rq) /\
    (session_user Sample.data rq = VNone \/
     exists u, session_user Sample.data rq = VUser u) /\
    forall k, k ≠ "user" -> context !! k = None.
Proof.
  intros rq kwargs. repeat (split; [reflexivity|]).
  apply (login_not_required_returns_principal ascii_upper Sample.data rq kwargs);
    reflexivity.
Defined.

(** * Further properties of context.py *)

Section Resolvers.

Variable str_upper : string -> string.
Variable D : DataAccess.

(** The whole of [_set_role_context] on a context that holds a viewer, the
    instructor standing and the flag, by the ceiling of the viewer. *)
Lemma _set_role_context_exact (context : gmap string value)
    (url_args : gmap string string) (kwargs : gmap string value)
    (v : User) (i av : value) :
  context !! "viewer" = Some (VUser v) ->
  context !! "instructor" = Some i ->
  context !! "alternate_view" = Some av ->
  _set_role_context str_upper context url_args kwargs =
  let url_args' := drop_invalid_role str_upper url_args in
  let ceiling := trueCeiling v (truthy i) in
  match ceiling with
  | STUDENT =>
      Ok (<["alternate_view" := py_or av (VBool false)]>
            (<["role" := VRole STUDENT]> (<["Role" := VObject "Role"]> context)),
          url_args')
  | _ =>
      r0 ← Role_getitem (str_upper (default (default_role_name ceiling)
                                            (url_args' !! "role")));
      Ok (<["alternate_view" :=
              py_or av (VBool (bool_decide (Role_min r0 ceiling ≠ ceiling)))]>
            (<["role" := VRole (Role_min r0 ceiling)]>
               (<["Role" := VObject "Role"]> context)),
          url_args')
  end.
Proof.
  intros Hv Hi Hav. unfold _set_role_context, trueCeiling, getitem.
  rewrite load_global_Role. simplify_map_eq/=.
  destruct (admin v); simplify_map_eq/=.
  { destruct (Role_getitem _) as [r0|]; simplify_map_eq/=; [|done].
    by rewrite py_ne_Role. }
  destruct (faculty v); simplify_map_eq/=.
  { destruct (Role_getitem _) as [r0|]; simplify_map_eq/=; [|done].
    by rewrite py_ne_Role. }
  destruct (truthy i); simplify_map_eq/=.
  { destruct (Role_getitem _) as [r0|]; simplify_map_eq/=; [|done].
    by rewrite py_ne_Role. }
  done.
Qed.

Lemma Role_min_ne (r0 ceiling : Role) :
  bool_decide (Role_min r0 ceiling ≠ ceiling) = (Role_value r0 <? Role_value ceiling).
Proof. by destruct r0, ceiling. Qed.

Lemma trueCeiling_STUDENT (v : User) (i : bool) :
  trueCeiling v i = STUDENT <-> admin v = false /\ faculty v = false /\ i = false.
Proof.
  unfold trueCeiling.
  destruct (admin v), (faculty v), i; simpl; intuition discriminate.
Qed.

(** X3. An admin who names a stored user in the [viewer] parameter is
    rendered as that user, whatever viewer the context held before;
    [alternate_view] is true exactly when that user is someone else. *)
Theorem admin_viewer_is_honoured (context : gmap string value)
    (url_args : gmap string string) (kwargs : gmap string value)
    (u w : User) (e : string) :
  context !! "user" = Some (VUser u) ->
  admin u = true ->
  url_args !! "viewer" = Some e ->
  user_by_email D (VStr e) = Some w ->
  _set_viewer_context D context url_args kwargs =
  Ok (<["alternate_view" := VBool (bool_decide (u ≠ w))]>
        (<["viewer" := VUser w]> context)).
Proof.
  intros Hu Ha He Hw. unfold _set_viewer_context, contains, getitem, User_first.
  rewrite Hu. simpl. rewrite Ha, He. simpl. rewrite Hw. simplify_map_eq/=.
  by rewrite py_ne_User.
Qed.

(** X4. When the [viewer] parameter of an admin names no stored user, the
    viewer is the principal and [alternate_view] is false, whatever viewer
    the context held before; the same holds for any principal when the
    parameter is missing and the context holds no viewer. *)
Theorem viewer_falls_back_to_user (context : gmap string value)
    (url_args : gmap string string) (kwargs : gmap string value) (u : User) :
  context !! "user" = Some (VUser u) ->
  (forall e, admin u = true -> url_args !! "viewer" = Some e ->
     user_by_email D (VStr e) = None ->
     _set_viewer_context D context url_args kwargs =
     Ok (<["alternate_view" := VBool false]> (<["viewer" := VUser u]> context))) /\
  (url_args !! "viewer" = None ->
   truthy (default VNone (context !! "viewer")) = false ->
   _set_viewer_context D context url_args kwargs =
   Ok (<["alternate_view" := VBool false]> (<["viewer" := VUser u]> context))).
Proof.
  intros Hu. split.
  - intros e Ha He Hw. unfold _set_viewer_context, contains, getitem, User_first.
    rewrite Hu. simpl. rewrite Ha, He. simpl. rewrite Hw. simplify_map_eq/=.
    rewrite py_ne_User, bool_decide_eq_false_2 by auto.
    by rewrite insert_insert_eq.
  - intros He Hw. unfold _set_viewer_context, contains, getitem.
    rewrite Hu. simpl. rewrite He, andb_false_r. simpl. rewrite Hw. simpl.
    rewrite Hu. simplify_map_eq/=.
    by rewrite py_ne_User, bool_decide_eq_false_2 by auto.
Qed.

(** X5. The resolvers rely on the login check: without a [user] key
    [_set_viewer_context] raises [KeyError], with the [None] of an anonymous
    session it raises [AttributeError]; [_set_instructor_context] and
    [_set_role_context] raise [KeyError] without a [viewer] key. *)
Theorem resolvers_need_a_principal (context : gmap string value)
    (url_args : gmap string string) (kwargs : gmap string value) :
  (context !! "user" = None ->
   _set_viewer_context D context url_args kwargs = Raise (KeyError "user")) /\
  (context !! "user" = Some VNone ->
   _set_viewer_context D context url_args kwargs = Raise (AttributeError "admin")) /\
  (context !! "viewer" = None ->
   _set_instructor_context D context url_args kwargs = Raise (KeyError "viewer") /\
   _set_role_context str_upper context url_args kwargs = Raise (KeyError "viewer")).
Proof.
  split; [|split].
  - intros H. unfold _set_viewer_context, getitem. by rewrite H.
  - intros H. unfold _set_viewer_context, getitem. by rewrite H.
  - intros H. split.
    + unfold _set_instructor_context, getitem. by rewrite H.
    + unfold _set_role_context, getitem. rewrite load_global_Role.
      by simplify_map_eq/=.
Qed.

(** X6. [_set_role_context] writes the keys [Role], [role] and
    [alternate_view] and no other key of the context; of [url_args] it can
    only remove [role], and a [role] that stays names a member. *)
Theorem role_resolution_frame (context : gmap string value)
    (url_args : gmap string string) (kwargs c5 : gmap string value)
    (url_args' : gmap string string) :
  _set_role_context str_upper context url_args kwargs = Ok (c5, url_args') ->
  (forall k, k ≠ "Role" -> k ≠ "role" -> k ≠ "alternate_view" ->
     c5 !! k = context !! k) /\
  c5 !! "Role" = Some (VObject "Role") /\
  (forall k, k ≠ "role" -> url_args' !! k = url_args !! k) /\
  (forall s, url_args' !! "role" = Some s ->
     url_args !! "role" = Some s /\ in_Role_members (str_upper s) = true) /\
  (url_args' !! "role" = None ->
   forall s, url_args !! "role" = Some s -> in_Role_members (str_upper s) = false).
Proof.
  intros H. apply _set_role_context_Ok in H
    as (v & av & r & _ & _ & -> & -> & _).
  split; [|split; [|split; [|split]]].
  - intros k H1 H2 H3. by rewrite !lookup_insert_ne.
  - by simplify_map_eq.
  - intros k Hk. unfold drop_invalid_role.
    destruct (url_args !! "role") as [s|]; [|done].
    destruct (negb _); [by rewrite lookup_delete_ne|done].
  - intros s. apply drop_invalid_role_lookup.
  - intros Hn s Hs. unfold drop_invalid_role in Hn. rewrite Hs in Hn.
    destruct (in_Role_members (str_upper s)); simpl in Hn; [congruence|done].
Qed.

Lemma Role_getitem_in_members (name : string) (r : Role) :
  Role_getitem name = Ok r -> in_Role_members name = true.
Proof.
  unfold Role_getitem, in_Role_members.
  destruct (assoc name Role_members); [done|discriminate].
Qed.

Lemma drop_invalid_role_valid (url_args : gmap string string) (s : string) :
  url_args !! "role" = Some s ->
  in_Role_members (str_upper s) = true ->
  drop_invalid_role str_upper url_args = url_args.
Proof. intros Hs Hm. unfold drop_invalid_role. by rewrite Hs, Hm. Qed.

Lemma Role_min_STUDENT (r : Role) : Role_min r STUDENT = STUDENT.
Proof. by destruct r. Qed.

(** Lines 133-134 with a [min_role] that names a member. *)
Lemma min_role_decides_aux (context kwargs : gmap string value)
    (m : string) (rm r : Role) :
  kwargs !! "min_role" = Some (VStr m) ->
  Role_getitem (str_upper m) = Ok rm ->
  context !! "role" = Some (VRole r) ->
  check_min_role str_upper context kwargs =
  if Role_value r <? Role_value rm then abort 403 else Ok tt.
Proof.
  intros Hm Hrm Hr. unfold check_min_role, getitem.
  rewrite Hm. simpl. rewrite Hrm. simpl. rewrite Hr. simpl. done.
Qed.

(** X7. A [role] parameter that names a member gives the smaller of that
    member and the viewer's ceiling, and the parameter stays in [url_args];
    [alternate_view] is switched on exactly when the member is below the
    ceiling, so a request for more than the ceiling is clamped without
    marking the view as alternate. *)
Theorem valid_role_is_clamped (context : gmap string value)
    (url_args : gmap string string) (kwargs : gmap string value)
    (v : User) (i : value) (av : bool) (s : string) (r0 : Role) :
  context !! "viewer" = Some (VUser v) ->
  context !! "instructor" = Some i ->
  context !! "alternate_view" = Some (VBool av) ->
  url_args !! "role" = Some s ->
  Role_getitem (str_upper s) = Ok r0 ->
  exists c5,
    _set_role_context str_upper context url_args kwargs = Ok (c5, url_args) /\
    c5 !! "role" = Some (VRole (Role_min r0 (trueCeiling v (truthy i)))) /\
    c5 !! "alternate_view" =
      Some (VBool (av || (Role_value r0 <? Role_value (trueCeiling v (truthy i))))).
Proof.
  intros Hv Hi Hav Hs Hr.
  rewrite (_set_role_context_exact _ _ _ v i (VBool av) Hv Hi Hav). simpl.
  rewrite (drop_invalid_role_valid _ s Hs (Role_getitem_in_members _ _ Hr)).
  rewrite Hs. simpl. rewrite Hr.
  destruct (trueCeiling v (truthy i)) eqn:HC; simpl;
    eexists; (split; [reflexivity|]); simplify_map_eq/=;
    rewrite ?Role_min_STUDENT, ?py_or_bool, ?Role_min_ne;
    (split; [reflexivity|]); try reflexivity.
  by destruct r0, av.
Qed.

(** X8. A viewer who is neither admin nor faculty nor instructor gets the
    role STUDENT and an unchanged [alternate_view], whatever [role] is
    asked for. *)
Theorem student_level_ignores_role (context : gmap string value)
    (url_args : gmap string string) (kwargs : gmap string value)
    (v : User) (i : value) (av : bool) :
  context !! "viewer" = Some (VUser v) ->
  context !! "instructor" = Some i ->
  context !! "alternate_view" = Some (VBool av) ->
  admin v = false -> faculty v = false -> truthy i = false ->
  exists c5,
    _set_role_context str_upper context url_args kwargs =
      Ok (c5, drop_invalid_role str_upper url_args) /\
    c5 !! "role" = Some (VRole STUDENT) /\
    c5 !! "alternate_view" = Some (VBool av).
Proof.
  intros Hv Hi Hav Ha Hf Ht.
  rewrite (_set_role_context_exact _ _ _ v i (VBool av) Hv Hi Hav). simpl.
  assert (trueCeiling v (truthy i) = STUDENT) as -> by by apply trueCeiling_STUDENT.
  eexists. split; [reflexivity|]. simplify_map_eq/=.
  by rewrite py_or_bool, orb_false_r.
Qed.

(** X9. Role resolution never clears the mark of an alternate view: when
    [alternate_view] is true before (the viewer is not the principal), it is
    true after, whatever role results. *)
Theorem alternate_view_is_kept (context : gmap string value)
    (url_args : gmap string string) (kwargs c5 : gmap string value)
    (url_args' : gmap string string) :
  _set_role_context str_upper context url_args kwargs = Ok (c5, url_args') ->
  context !! "alternate_view" = Some (VBool true) ->
  c5 !! "alternate_view" = Some (VBool true).
Proof.
  intros H Hav. apply _set_role_context_Ok in H
    as (v & av & r & _ & Hav' & _ & -> & _).
  rewrite Hav in Hav'. injection Hav' as <-. by rewrite lookup_insert_eq.
Qed.

(** X10. The docstring gives [min_role] the type [Role], but line 133 calls
    [upper] on it: a member raises [AttributeError]; a string that names no
    member raises [KeyError] and is not put aside as an unknown [role]
    parameter is. *)
Theorem min_role_errors (context kwargs : gmap string value) :
  (forall r, kwargs !! "min_role" = Some (VRole r) ->
     check_min_role str_upper context kwargs = Raise (AttributeError "upper")) /\
  (forall m, kwargs !! "min_role" = Some (VStr m) ->
     in_Role_members (str_upper m) = false ->
     check_min_role str_upper context kwargs = Raise (KeyError (str_upper m))).
Proof.
  split.
  - intros r H. unfold check_min_role. by rewrite H.
  - intros m H Hm. unfold check_min_role. rewrite H. simpl.
    assert (Role_getitem (str_upper m) = Raise (KeyError (str_upper m))) as ->.
    { unfold Role_getitem, in_Role_members in *.
      destruct (assoc (str_upper m) Role_members); [discriminate|done]. }
    done.
Qed.

(** X11. The check for the minimum role sees the role after the downgrade,
    not the ceiling: with a [role] parameter and a [min_role] that both name
    members, lines 132-134 stop the request with 403 exactly when the smaller
    of the requested role and the ceiling is below the minimum. A viewer who
    previews a lower role is locked out of a page the ceiling would open. *)
Theorem min_role_sees_downgraded_role (context : gmap string value)
    (url_args : gmap string string) (kwargs : gmap string value)
    (v : User) (i : value) (av : bool) (s m : string) (r0 rm : Role) :
  context !! "viewer" = Some (VUser v) ->
  context !! "instructor" = Some i ->
  context !! "alternate_view" = Some (VBool av) ->
  url_args !! "role" = Some s ->
  Role_getitem (str_upper s) = Ok r0 ->
  kwargs !! "min_role" = Some (VStr m) ->
  Role_getitem (str_upper m) = Ok rm ->
  ('(c, _) ← _set_role_context str_upper context url_args kwargs;
   check_min_role str_upper c kwargs) =
  if Role_value (Role_min r0 (trueCeiling v (truthy i))) <? Role_value rm
  then abort 403 else Ok tt.
Proof.
  intros Hv Hi Hav Hs Hr Hm Hrm.
  rewrite (_set_role_context_exact _ _ _ v i (VBool av) Hv Hi Hav). simpl.
  rewrite (drop_invalid_role_valid _ s Hs (Role_getitem_in_members _ _ Hr)).
  rewrite Hs. simpl. rewrite Hr.
  destruct (trueCeiling v (truthy i)) eqn:HC; simpl;
    rewrite ?Role_min_STUDENT;
    apply (min_role_decides_aux _ _ m); try done; by simplify_map_eq.
Qed.


(** X12. A [course_id] that names no stored course leaves [None] under
    [course]; the viewer then has standing only as an admin: [instructor] is
    the admin flag, [student] is false, and the check of line 130 lets admins
    through and stops everybody else with 403. *)
Theorem unknown_course_standing (context : gmap string value)
    (url_args : gmap string string) (kwargs : gmap string value)
    (v : User) (i : value) :
  context !! "viewer" = Some (VUser v) ->
  kwargs !! "course_id" = Some i ->
  course_by_id D i = None ->
  exists c4,
    (c2 ← _set_course_context D context url_args kwargs;
     c3 ← _set_instructor_context D c2 url_args kwargs;
     _set_student_context D c3 url_args kwargs) = Ok c4 /\
    c4 !! "course" = Some VNone /\
    c4 !! "instructor" = Some (VBool (admin v)) /\
    c4 !! "student" = Some (VBool false) /\
    check_standing c4 = if admin v then Ok tt else abort 403.
Proof.
  intros Hv Hk Hc. rewrite _set_course_context_eq, Hk. simpl.
  unfold Course_first. rewrite Hc.
  unfold _set_instructor_context, _set_student_context, check_standing, getitem.
  simplify_map_eq/=.
  destruct (admin v); simplify_map_eq/=; eexists; (split; [reflexivity|]);
    by simplify_map_eq/=.
Qed.

(** X1. A request whose session names no stored user, to an endpoint that
    requires login (the default) and has no argument called [context] or
    [url_args], is stopped with 401, whatever the request parameters and the
    other endpoint arguments are. *)
Theorem anonymous_is_unauthorized (rq : Request) (kwargs : gmap string value) :
  kwargs !! "context" = None ->
  kwargs !! "url_args" = None ->
  truthy (default (VBool true) (kwargs !! "login_required")) = true ->
  user_by_email D (default VNone (session rq !! "user_email")) = None ->
  get_context str_upper D rq kwargs = abort 401.
Proof.
  intros Hc Ha Hl Hu.
  apply get_context_unauthenticated; [by apply check_keywords_Ok|done|].
  unfold session_user, User_first. by rewrite Hu.
Qed.

(** X2. [get_context] has four outcomes and no other. [TypeError] exactly
    when an endpoint argument is called [context] or [url_args]; otherwise
    the context with the single key [user] exactly when login is not
    required, 401 exactly when login is required and the session names no
    stored user, and [NameError] exactly when login is required and the
    session names one. It never stops a request with 403 and never returns a
    context with a viewer or a role. *)
Theorem get_context_outcomes (rq : Request) (kwargs : gmap string value) :
  let collides := contains kwargs "context" || contains kwargs "url_args" in
  let required := truthy (default (VBool true) (kwargs !! "login_required")) in
  (get_context str_upper D rq kwargs = Raise TypeError <-> collides = true) /\
  (forall c, get_context str_upper D rq kwargs = Ok c <->
     collides = false /\ required = false /\ c = {["user" := session_user D rq]}) /\
  (forall code, get_context str_upper D rq kwargs = abort code <->
     collides = false /\ required = true /\ session_user D rq = VNone /\
     code = 401) /\
  (get_context str_upper D rq kwargs = Raise (NameError "user") <->
     collides = false /\ required = true /\
     exists u, session_user D rq = VUser u) /\
  (forall c, get_context str_upper D rq kwargs = Ok c ->
     c !! "viewer" = None /\ c !! "role" = None).
Proof.
  intros collides required.
  assert (Hk : check_keywords kwargs = if collides then Raise TypeError else Ok tt)
    by reflexivity.
  assert (Hcases :
    (collides = true /\ get_context str_upper D rq kwargs = Raise TypeError) \/
    (collides = false /\ required = false /\
     get_context str_upper D rq kwargs = Ok {["user" := session_user D rq]}) \/
    (collides = false /\ required = true /\ session_user D rq = VNone /\
     get_context str_upper D rq kwargs = abort 401) \/
    (collides = false /\ required = true /\
     (exists u, session_user D rq = VUser u) /\
     get_context str_upper D rq kwargs = Raise (NameError "user"))).
  { destruct collides eqn:Hc.
    { left. split; [done|]. by apply get_context_keywords_refused. }
    right. destruct required eqn:Hr.
    - right. unfold session_user, User_first.
      destruct (user_by_email D _) as [u|] eqn:Hu.
      + right. split; [done|]. split; [done|]. split; [eauto|].
        apply get_context_logged_in; [done|done|].
        unfold session_user, User_first. by rewrite Hu.
      + left. split; [done|]. split; [done|]. split; [done|].
        apply get_context_unauthenticated; [done|done|].
        unfold session_user, User_first. by rewrite Hu.
    - left. split; [done|]. split; [done|].
      by apply get_context_login_not_required. }
  clear Hk. unfold abort in *.
  destruct Hcases as [[Hc H]|[(Hc & Hr & H)|[(Hc & Hr & Hu & H)|(Hc & Hr & [u Hu] & H)]]];
    rewrite H, Hc, ?Hr;
    split_and!; try (split; intros; destruct_and?; simplify_eq; done);
    try (intros c [=]; done).
  all: try (split; [done|]; intros; destruct_and?; done).
  - split; [done|]. intros (_ & _ & u & Hu'). congruence.
  - intros code. split; [done|]. intros (_ & _ & Hu' & _). congruence.
  - split; [eauto|done].
Qed.

(** X13. The names of the members are the keys of the lookup: [Role[n]]
    finds a member exactly when [n] is its name, and raises [KeyError] for
    every other string. *)
Theorem Role_lookup_by_name (n : string) :
  (forall r, Role_getitem n = Ok r <-> n = Role_name r) /\
  (in_Role_members n = false <-> Role_getitem n = Raise (KeyError n)).
Proof.
  unfold Role_getitem, in_Role_members, Role_members, assoc.
  destruct (String.eqb_spec "STUDENT" n) as [<-|H1].
  { split; [intros []; split; (done || discriminate)|split; discriminate]. }
  destruct (String.eqb_spec "INSTRUCTOR" n) as [<-|H2].
  { split; [intros []; split; (done || discriminate)|split; discriminate]. }
  destruct (String.eqb_spec "FACULTY" n) as [<-|H3].
  { split; [intros []; split; (done || discriminate)|split; discriminate]. }
  destruct (String.eqb_spec "ADMIN" n) as [<-|H4].
  { split; [intros []; split; (done || discriminate)|split; discriminate]. }
  split; [|done].
  intros []; split; try discriminate; simpl; intros ->; done.
Qed.

Section Defaults.

Hypothesis str_upper_ascii :
  forall s, is_ascii s = true -> str_upper s = ascii_upper s.

Lemma Role_getitem_literals :
  Role_getitem (str_upper "student") = Ok STUDENT /\
  Role_getitem (str_upper "instructor") = Ok INSTRUCTOR /\
  Role_getitem (str_upper "faculty") = Ok FACULTY /\
  Role_getitem (str_upper "admin") = Ok ADMIN.
Proof.
  split_and!.
  - apply (Role_getitem_default str_upper str_upper_ascii STUDENT).
  - apply (Role_getitem_default str_upper str_upper_ascii INSTRUCTOR).
  - apply (Role_getitem_default str_upper str_upper_ascii FACULTY).
  - apply (Role_getitem_default str_upper str_upper_ascii ADMIN).
Qed.

(** C7. The [role] parameter is read without regard to case. A member's
    name in any mix of ASCII upper and lower case is kept in [url_args] and
    parsed: the role is the smaller of that member and the ceiling. A value
    whose upper-casing names no member is deleted before the cascade, which
    then runs as if the parameter had not been sent, so the role is the
    ceiling of the branch; and such a value raises nothing. *)
Theorem role_parameter_parsing :
  (forall (s t : string) (context : gmap string value)
      (url_args : gmap string string) (kwargs : gmap string value),
    is_ascii s = true -> is_ascii t = true -> ascii_upper s = ascii_upper t ->
    context_of (_set_role_context str_upper context (<["role" := s]> url_args) kwargs) =
    context_of (_set_role_context str_upper context (<["role" := t]> url_args) kwargs)) /\
  (forall (s : string) (r0 : Role) (context : gmap string value)
      (url_args : gmap string string) (kwargs : gmap string value)
      (v : User) (i : value) (av : bool),
    is_ascii s = true ->
    ascii_upper s = Role_name r0 ->
    url_args !! "role" = Some s ->
    context !! "viewer" = Some (VUser v) ->
    context !! "instructor" = Some i ->
    context !! "alternate_view" = Some (VBool av) ->
    exists c5,
      _set_role_context str_upper context url_args kwargs = Ok (c5, url_args) /\
      c5 !! "role" = Some (VRole (Role_min r0 (trueCeiling v (truthy i)))) /\
      c5 !! "alternate_view" =
        Some (VBool (av || (Role_value r0 <? Role_value (trueCeiling v (truthy i)))))) /\
  (forall (s : string) (context : gmap string value)
      (url_args : gmap string string) (kwargs : gmap string value),
    url_args !! "role" = Some s ->
    in_Role_members (str_upper s) = false ->
    _set_role_context str_upper context url_args kwargs =
    _set_role_context str_upper context (delete "role" url_args) kwargs) /\
  (forall (s : string) (context : gmap string value)
      (url_args : gmap string string) (kwargs : gmap string value)
      (v : User) (i av : value),
    url_args !! "role" = Some s ->
    in_Role_members (str_upper s) = false ->
    context !! "viewer" = Some (VUser v) ->
    context !! "instructor" = Some i ->
    context !! "alternate_view" = Some av ->
    exists c5,
      _set_role_context str_upper context url_args kwargs =
        Ok (c5, delete "role" url_args) /\
      c5 !! "role" = Some (VRole (trueCeiling v (truthy i)))).
Proof.
  split; [|split; [|split]].
  - intros s t context url_args kwargs Hs Ht Hst.
    apply _set_role_context_ext. intros d.
    assert (Hu : str_upper s = str_upper t).
    { by rewrite !str_upper_ascii, Hst by done. }
    unfold drop_invalid_role. rewrite !lookup_insert_eq, Hu.
    destruct (in_Role_members (str_upper t)); simpl.
    + by rewrite !lookup_insert_eq.
    + by rewrite !lookup_delete_eq.
  - intros s r0 context url_args kwargs v i av Ha Hn Hs Hv Hi Hav.
    assert (Hr : Role_getitem (str_upper s) = Ok r0).
    { rewrite str_upper_ascii, Hn by done. by destruct r0. }
    rewrite (_set_role_context_exact _ _ _ v i (VBool av) Hv Hi Hav). simpl.
    rewrite (drop_invalid_role_valid _ s Hs (Role_getitem_in_members _ _ Hr)).
    rewrite Hs. simpl. rewrite Hr.
    destruct (trueCeiling v (truthy i)) eqn:HC; simpl;
      eexists; (split; [reflexivity|]); simplify_map_eq/=;
      rewrite ?Role_min_STUDENT, ?py_or_bool, ?Role_min_ne;
      (split; [reflexivity|]); try reflexivity.
    by destruct r0, av.
  - intros s context url_args kwargs Hs Hm.
    unfold _set_role_context.
    rewrite (drop_invalid_role_unparseable _ _ _ Hs Hm).
    by rewrite drop_invalid_role_absent by apply lookup_delete_eq.
  - intros s context url_args kwargs v i av Hs Hm Hv Hi Hav.
    destruct (_set_role_context_total str_upper str_upper_ascii
                context url_args kwargs v i av Hv Hi Hav)
      as (c5 & r & H & Hr & Hd).
    rewrite (drop_invalid_role_unparseable _ _ _ Hs Hm) in H, Hd.
    exists c5. split; [done|]. rewrite Hr, Hd; [done|apply lookup_delete_eq].
Qed.

(** X14. A name of a member written in any mix of ASCII upper and lower
    case is looked up as that member. *)
Theorem Role_lookup_ignores_case (s : string) (r : Role) :
  is_ascii s = true ->
  ascii_upper s = Role_name r ->
  Role_getitem (str_upper s) = Ok r /\
  Role_getitem (str_upper (ascii_lower s)) = Ok r /\
  Role_getitem (str_upper (ascii_upper s)) = Ok r.
Proof.
  intros Ha Hs.
  rewrite !str_upper_ascii by (by rewrite ?is_ascii_lower, ?is_ascii_upper).
  rewrite ascii_upper_lower, ascii_upper_upper, Hs. by destruct r.
Qed.

(** X15. An endpoint without [min_role] admits every role: once role
    resolution has returned, the check of lines 133-134 passes. *)
Theorem default_min_role_never_blocks (context : gmap string value)
    (url_args : gmap string string) (kwargs c5 : gmap string value)
    (url_args' : gmap string string) :
  _set_role_context str_upper context url_args kwargs = Ok (c5, url_args') ->
  kwargs !! "min_role" = None ->
  check_min_role str_upper c5 kwargs = Ok tt.
Proof.
  intros H Hm. apply _set_role_context_Ok in H
    as (v & av & r & _ & _ & _ & -> & _).
  unfold check_min_role, getitem. rewrite Hm. simpl.
  destruct Role_getitem_literals as (-> & _).
  simplify_map_eq/=. by destruct r.
Qed.

(** X16. Lines 126-135 on a plain request: a principal with standing in the
    course of the endpoint, no [viewer] and no [role] parameter and no
    [min_role], gets back a context of eight keys in which the viewer is the
    principal, the role is the ceiling and [alternate_view] is false. *)
Theorem plain_request_resolves (u : User) (c : Course) (i : value)
    (url_args : gmap string string) (kwargs : gmap string value) :
  url_args !! "viewer" = None ->
  url_args !! "role" = None ->
  kwargs !! "course_id" = Some i ->
  course_by_id D i = Some c ->
  kwargs !! "min_role" = None ->
  admin u || teaching D u c || taking D u c = true ->
  resolve_from_viewer str_upper D {["user" := VUser u]} url_args kwargs =
  Ok {["user" := VUser u; "viewer" := VUser u;
       "alternate_view" := VBool false; "course" := VCourse c;
       "instructor" := VBool (admin u || teaching D u c);
       "student" := VBool (taking D u c);
       "Role" := VObject "Role";
       "role" := VRole (trueCeiling u (admin u || teaching D u c))]}.
Proof.
  intros Hv Hr Hk Hc Hm Hs. unfold resolve_from_viewer.
  assert (Hu : ({["user" := VUser u]} : gmap string value) !! "user" = Some (VUser u))
    by apply lookup_singleton_eq.
  assert (H1 : _set_viewer_context D {["user" := VUser u]} url_args kwargs =
    Ok (<["alternate_view" := VBool false]>
          (<["viewer" := VUser u]> {["user" := VUser u]}))).
  { unfold _set_viewer_context, contains, getitem.
    rewrite Hu. simpl. rewrite Hv, andb_false_r. simpl.
    rewrite lookup_singleton_ne by done. simpl.
    rewrite Hu. simplify_map_eq/=.
    by rewrite py_ne_User, bool_decide_eq_false_2 by auto. }
  rewrite H1. simpl. clear H1.
  rewrite _set_course_context_eq, Hk. simpl. unfold Course_first. rewrite Hc.
  set (c2 := <["course" := VCourse c]> _).
  assert (Hv2 : c2 !! "viewer" = Some (VUser u)) by (by subst c2; simplify_map_eq).
  assert (Hc2 : c2 !! "course" = Some (VCourse c)) by (by subst c2; simplify_map_eq).
  assert (H3 : _set_instructor_context D c2 url_args kwargs =
               Ok (<["instructor" := VBool (admin u || teaching D u c)]> c2)).
  { unfold _set_instructor_context, getitem. rewrite Hv2. simpl.
    destruct (admin u); [done|]. rewrite Hc2. simpl. by rewrite ?Hv2. }
  rewrite H3. simpl.
  set (c3 := <["instructor" := _]> c2).
  assert (H4 : _set_student_context D c3 url_args kwargs =
               Ok (<["student" := VBool (taking D u c)]> c3)).
  { unfold _set_student_context, getitem. subst c3.
    rewrite !(lookup_insert_ne _ "instructor") by done. rewrite Hc2. simpl.
    by rewrite ?Hv2. }
  rewrite H4. simpl.
  set (c4 := <["student" := _]> c3).
  assert (H5 : check_standing c4 = Ok tt).
  { unfold check_standing, getitem. subst c4 c3. simplify_map_eq/=.
    destruct (admin u || teaching D u c) eqn:Hi; simpl in *; [done|].
    simplify_map_eq/=. by rewrite Hs. }
  rewrite H5. simpl.
  rewrite (_set_role_context_exact c4 url_args kwargs u
             (VBool (admin u || teaching D u c)) (VBool false))
    by (by subst c4 c3 c2; simplify_map_eq).
  simpl. rewrite (drop_invalid_role_absent _ _ Hr), Hr. simpl.
  set (C := trueCeiling u (admin u || teaching D u c)).
  assert (Hfin : forall cfin : gmap string value,
    cfin = <["alternate_view" := VBool false]>
             (<["role" := VRole C]> (<["Role" := VObject "Role"]> c4)) ->
    (check_min_role str_upper cfin kwargs;; Ok cfin) =
    Ok {["user" := VUser u; "viewer" := VUser u;
         "alternate_view" := VBool false; "course" := VCourse c;
         "instructor" := VBool (admin u || teaching D u c);
         "student" := VBool (taking D u c);
         "Role" := VObject "Role"; "role" := VRole C]}).
  { intros cfin ->. unfold check_min_role, getitem. rewrite Hm. simpl.
    destruct Role_getitem_literals as (-> & _).
    simplify_map_eq/=.
    assert ((Role_value C <? 0) = false) as -> by by destruct C.
    simpl. apply (f_equal (@Ok _)). apply map_eq. intros k. subst c4 c3 c2.
    destruct (decide (k = "alternate_view")) as [->|]; [by simplify_map_eq|].
    destruct (decide (k = "role")) as [->|]; [by simplify_map_eq|].
    destruct (decide (k = "Role")) as [->|]; [by simplify_map_eq|].
    destruct (decide (k = "student")) as [->|]; [by simplify_map_eq|].
    destruct (decide (k = "instructor")) as [->|]; [by simplify_map_eq|].
    destruct (decide (k = "course")) as [->|]; [by simplify_map_eq|].
    destruct (decide (k = "viewer")) as [->|]; [by simplify_map_eq|].
    destruct (decide (k = "user")) as [->|]; [by simplify_map_eq|].
    by simplify_map_eq. }
  destruct C eqn:HC; simpl.
  - rewrite py_or_bool. simpl. by apply Hfin.
  - destruct Role_getitem_literals as (_ & -> & _). simpl.
    rewrite py_or_bool. simpl. by apply Hfin.
  - destruct Role_getitem_literals as (_ & _ & -> & _). simpl.
    rewrite py_or_bool. simpl. by apply Hfin.
  - destruct Role_getitem_literals as (_ & _ & _ & ->). simpl.
    rewrite py_or_bool. simpl. by apply Hfin.
Qed.

End Defaults.

End Resolvers.

(** * Properties of routes.py *)

Section RoutesProperties.

Variable str_upper : string -> string.
Variable D : DataAccess.
Variable T : Routes.Tables.

(** X17. Where the two entry pages lead: a visitor whose session names no
    stored user sees [index.html] at the root and is sent from [home] to the
    root by the handler of 401; a stored user is sent from the root to [home]
    and sees [home.html]. A redirect always leads to a page that renders, so
    the two pages never send a visitor back and forth. *)
Theorem entry_pages_land (rq : Request) :
  (truthy (Routes.get_user D rq) = false /\
   Routes.answer (Routes.root D) rq = Ok (Routes.Render "index.html" ∅) /\
   Routes.answer (Routes.home D T) rq = Ok (Routes.Redirect "demograder.root")) \/
  (truthy (Routes.get_user D rq) = true /\
   Routes.answer (Routes.root D) rq = Ok (Routes.Redirect "demograder.home") /\
   exists context,
     Routes.answer (Routes.home D T) rq = Ok (Routes.Render "home.html" context) /\
     context !! "user" = Some (Routes.TObject (Routes.get_user D rq))).
Proof.
  unfold Routes.answer, Routes.root, Routes.home, Routes.get_context.
  cbv zeta. destruct (truthy (Routes.get_user D rq)) eqn:Hu; simpl.
  - right. split; [done|]. split; [done|].
    eexists. split; [reflexivity|]. by simplify_map_eq.
  - left. done.
Qed.

(** X18. The home page hands every stored user, admin or not, all rows of
    the five tables: the context of [routes.get_context] differs between two
    logged-in users in the key [user] only, and has exactly six keys. *)
Theorem home_context_is_the_same_for_all (rq1 rq2 : Request) (u1 u2 : User) :
  Routes.get_user D rq1 = VUser u1 ->
  Routes.get_user D rq2 = VUser u2 ->
  exists c1 c2,
    Routes.get_context D T rq1 = Ok c1 /\
    Routes.get_context D T rq2 = Ok c2 /\
    c1 = <["user" := Routes.TObject (VUser u1)]> c2 /\
    c1 !! "users" = Some (Routes.TList (Routes.users T)) /\
    c1 !! "courses" = Some (Routes.TList (Routes.courses T)) /\
    c1 !! "assignments" = Some (Routes.TList (Routes.assignments T)) /\
    c1 !! "questions" = Some (Routes.TList (Routes.questions T)) /\
    c1 !! "question_files" = Some (Routes.TList (Routes.question_files T)) /\
    dom c1 = list_to_set ["user"; "users"; "courses"; "assignments";
                          "questions"; "question_files"].
Proof.
  intros H1 H2. unfold Routes.get_context. cbv zeta. rewrite H1, H2. simpl.
  eexists _, _. split; [reflexivity|]. split; [reflexivity|].
  split_and!; by simplify_map_eq.
Qed.

(** X19. The two functions called [get_context] agree on who is anonymous:
    the one of routes.py stops a request with 401 exactly when the one of
    context.py does so on an endpoint with default arguments. For a stored
    user the first returns a context and the second raises [NameError]. *)
Theorem the_two_get_context (rq : Request) :
  (Routes.get_context D T rq = abort 401 <->
   get_context str_upper D rq ∅ = abort 401) /\
  ((exists c, Routes.get_context D T rq = Ok c) <->
   get_context str_upper D rq ∅ = Raise (NameError "user")).
Proof.
  assert (Hsame : Routes.get_user D rq = session_user D rq) by reflexivity.
  unfold Routes.get_context. cbv zeta. rewrite Hsame.
  destruct (truthy (session_user D rq)) eqn:Hu; simpl.
  - rewrite (get_context_logged_in str_upper D rq ∅) by (done || reflexivity).
    split; [split; intros H; discriminate|]. split; [done|eauto].
  - rewrite (get_context_unauthenticated str_upper D rq ∅) by (done || reflexivity).
    split; [done|]. split; [intros [c H]; discriminate|discriminate].
Qed.

End RoutesProperties.

(** The keyword arguments of a rule with one variable. *)
Lemma dom_one_variable (view_args : gmap string value) (x : string) :
  dom view_args = {[x]} ∪ ∅ ->
  exists v, view_args = {[x := v]}.
Proof.
  rewrite union_empty_r_L. intros Hd.
  assert (Hx : x ∈ dom view_args) by (rewrite Hd; by apply elem_of_singleton).
  apply elem_of_dom in Hx as [v Hv]. exists v.
  apply map_eq. intros k. destruct (decide (k = x)) as [->|Hk].
  - by rewrite lookup_singleton_eq.
  - rewrite lookup_singleton_ne by done. apply not_elem_of_dom.
    rewrite Hd. by intros ?%elem_of_singleton.
Qed.

Lemma bind_keywords_none : Routes.bind_keywords [] ∅ = Ok [].
Proof. unfold Routes.bind_keywords. by rewrite dom_empty_L, elements_empty. Qed.

Lemma bind_keywords_same (x : string) (v : value) :
  Routes.bind_keywords [x] {[x := v]} = Ok [v].
Proof.
  unfold Routes.bind_keywords. rewrite dom_singleton_L, elements_singleton. simpl.
  rewrite bool_decide_eq_true_2 by constructor. simpl.
  by rewrite lookup_singleton_eq.
Qed.

Lemma bind_keywords_other (x y : string) (v : value) :
  x ≠ y -> Routes.bind_keywords [y] {[x := v]} = Raise TypeError.
Proof.
  intros Hxy. unfold Routes.bind_keywords.
  rewrite dom_singleton_L, elements_singleton. simpl.
  rewrite bool_decide_eq_false_2; [done|].
  intros H. apply list_elem_of_singleton in H. done.
Qed.

(** X20. Flask calls a view with the variables of its rule as keyword
    arguments. For ten of the twelve rules the variables are the parameters
    of the view and the call binds them; the views [file_view] and
    [download_file] take [file_id] while their rules fill in [file], so every
    request to them ends in a [TypeError] before the view runs. *)
Theorem rules_bind_their_views (r : Routes.rule) (view_args : gmap string value) :
  r ∈ Routes.url_map ->
  dom view_args = list_to_set (Routes.rule_variables r) ->
  if bool_decide (Routes.rule_view r = "file_view" \/
                  Routes.rule_view r = "download_file")
  then Routes.bind_keywords (Routes.view_parameters r) view_args = Raise TypeError
  else exists vs,
    Routes.bind_keywords (Routes.view_parameters r) view_args = Ok vs /\
    length vs = length (Routes.view_parameters r).
Proof.
  intros Hr Hd. unfold Routes.url_map in Hr.
  repeat (apply elem_of_cons in Hr as [->|Hr]); [..|by apply elem_of_nil in Hr];
    simpl in *;
    first [ apply dom_one_variable in Hd as [v ->]
          | apply dom_empty_inv_L in Hd as -> ];
    first [ by apply bind_keywords_other
          | eexists; split; [apply bind_keywords_none|reflexivity]
          | eexists; split; [apply bind_keywords_same|reflexivity] ].
Qed.

(** * What an admin sees as another user *)

Section Impersonation.

Variable str_upper : string -> string.
Variable D : DataAccess.

Lemma same_view_insert (a : User) (c1 c2 : gmap string value) (k : string) (x : value) :
  k ≠ "user" -> k ≠ "alternate_view" ->
  same_view a c1 c2 -> same_view a (<[k := x]> c1) (<[k := x]> c2).
Proof.
  intros Hk1 Hk2 (Hu & Ha & [b Hb] & Hs). split_and!.
  - by rewrite lookup_insert_ne.
  - by rewrite lookup_insert_ne.
  - exists b. by rewrite lookup_insert_ne.
  - intros j Hj1 Hj2. destruct (decide (k = j)) as [->|Hkj].
    + by rewrite !lookup_insert_eq.
    + rewrite !lookup_insert_ne by done. by apply Hs.
Qed.

Lemma alike_bind {A B A' B'} (R : A -> B -> Prop) (R' : A' -> B' -> Prop)
    (m1 : result A) (m2 : result B) (f1 : A -> result A') (f2 : B -> result B') :
  alike R m1 m2 ->
  (forall x y, R x y -> alike R' (f1 x) (f2 y)) ->
  alike R' (m1 ≫= f1) (m2 ≫= f2).
Proof. destruct m1, m2; simpl; intros H Hf; try done. by apply Hf. Qed.

Lemma same_view_getitem (a : User) (c1 c2 : gmap string value) (k : string) :
  k ≠ "user" -> k ≠ "alternate_view" ->
  same_view a c1 c2 -> getitem c1 k = getitem c2 k.
Proof. intros Hk1 Hk2 (_ & _ & _ & Hs). unfold getitem. by rewrite Hs. Qed.

Lemma same_view_course (a : User) (c1 c2 : gmap string value)
    (u1 u2 : gmap string string) (kwargs : gmap string value) :
  same_view a c1 c2 ->
  alike (same_view a) (_set_course_context D c1 u1 kwargs)
                      (_set_course_context D c2 u2 kwargs).
Proof.
  intros H. rewrite !_set_course_context_eq. simpl.
  destruct (kwargs !! "course_id"); [by apply same_view_insert|done].
Qed.

Lemma same_view_instructor (a : User) (c1 c2 : gmap string value)
    (u1 u2 : gmap string string) (kwargs : gmap string value) :
  same_view a c1 c2 ->
  alike (same_view a) (_set_instructor_context D c1 u1 kwargs)
                      (_set_instructor_context D c2 u2 kwargs).
Proof.
  intros H. unfold _set_instructor_context.
  rewrite (same_view_getitem a c1 c2 "viewer") by done.
  assert (Hc : c1 !! "course" = c2 !! "course") by (by apply H).
  rewrite Hc.
  destruct (getitem c2 "viewer") as [v|]; simpl; [|done].
  destruct (getattr v "admin") as [x|]; simpl; [|done].
  destruct (truthy x); simpl; [by apply same_view_insert|].
  destruct (truthy _); simpl; [|by apply same_view_insert].
  rewrite (same_view_getitem a c1 c2 "course") by done.
  destruct (getitem c2 "course") as [c|]; simpl; [|done].
  destruct (call_teaching D v c); simpl; [by apply same_view_insert|done].
Qed.

Lemma same_view_student (a : User) (c1 c2 : gmap string value)
    (u1 u2 : gmap string string) (kwargs : gmap string value) :
  same_view a c1 c2 ->
  alike (same_view a) (_set_student_context D c1 u1 kwargs)
                      (_set_student_context D c2 u2 kwargs).
Proof.
  intros H. unfold _set_student_context.
  assert (Hc : c1 !! "course" = c2 !! "course") by (by apply H).
  rewrite Hc.
  destruct (truthy _); simpl; [|by apply same_view_insert].
  rewrite (same_view_getitem a c1 c2 "viewer") by done.
  destruct (getitem c2 "viewer") as [v|]; simpl; [|done].
  rewrite (same_view_getitem a c1 c2 "course") by done.
  destruct (getitem c2 "course") as [c|]; simpl; [|done].
  destruct (call_taking D v c); simpl; [by apply same_view_insert|done].
Qed.

Lemma same_view_standing (a : User) (c1 c2 : gmap string value) :
  same_view a c1 c2 -> check_standing c1 = check_standing c2.
Proof.
  intros H. unfold check_standing.
  rewrite (same_view_getitem a c1 c2 "instructor") by done.
  by rewrite (same_view_getitem a c1 c2 "student") by done.
Qed.

Lemma same_view_min_role (a : User) (c1 c2 kwargs : gmap string value) :
  same_view a c1 c2 ->
  check_min_role str_upper c1 kwargs = check_min_role str_upper c2 kwargs.
Proof.
  intros H. unfold check_min_role.
  by rewrite (same_view_getitem a c1 c2 "role") by done.
Qed.

(** The flag written by lines 63, 69, 75 and 78 on both sides. *)
Lemma same_view_flag (a : User) (c1 c2 : gmap string value) (x : bool) :
  same_view a c1 c2 ->
  alike (same_view a)
    (av ← getitem c1 "alternate_view";
     Ok (<["alternate_view" := py_or av (VBool x)]> c1))
    (av ← getitem c2 "alternate_view";
     Ok (<["alternate_view" := py_or av (VBool x)]> c2)).
Proof.
  intros (Hu & Ha & [b Hb] & Hs). unfold getitem. rewrite Ha, Hb. simpl.
  split_and!.
  - by rewrite lookup_insert_ne.
  - by rewrite lookup_insert_eq.
  - exists (b || x). by rewrite lookup_insert_eq, py_or_bool.
  - intros k Hk1 Hk2. rewrite !lookup_insert_ne by done. by apply Hs.
Qed.

Lemma same_view_role (a : User) (c1 c2 : gmap string value)
    (u1 u2 : gmap string string) (kwargs : gmap string value) :
  u1 !! "role" = u2 !! "role" ->
  same_view a c1 c2 ->
  alike (same_view a) (context_of (_set_role_context str_upper c1 u1 kwargs))
                      (context_of (_set_role_context str_upper c2 u2 kwargs)).
Proof.
  intros Hr H.
  assert (Hd : forall d, str_upper (default d (drop_invalid_role str_upper u1 !! "role")) =
                         str_upper (default d (drop_invalid_role str_upper u2 !! "role"))).
  { intros d. unfold drop_invalid_role. rewrite Hr.
    destruct (u2 !! "role") as [s|] eqn:Hs; [|by rewrite Hr, Hs].
    destruct (negb _); [by rewrite !lookup_delete_eq|by rewrite Hr, Hs]. }
  rewrite (_set_role_context_ext str_upper c1 u1 u2 kwargs Hd).
  clear Hd Hr u1.
  unfold _set_role_context. rewrite load_global_Role. simpl.
  set (d1 := <["Role" := VObject "Role"]> c1).
  set (d2 := <["Role" := VObject "Role"]> c2).
  assert (Hdd : same_view a d1 d2) by (by apply same_view_insert).
  clearbody d1 d2. clear H c1 c2.
  rewrite (same_view_getitem a d1 d2 "viewer") by done.
  rewrite (same_view_getitem a d1 d2 "instructor") by done.
  assert (Hbranch : forall (r : Role) (ceiling : Role),
    alike (same_view a)
      (context_of
         (av ← getitem (<["role" := VRole r]> d1) "alternate_view";
          r' ← getitem (<["role" := VRole r]> d1) "role";
          Ok (<["alternate_view" := py_or av (VBool (py_ne r' (VRole ceiling)))]>
                (<["role" := VRole r]> d1), drop_invalid_role str_upper u2)))
      (context_of
         (av ← getitem (<["role" := VRole r]> d2) "alternate_view";
          r' ← getitem (<["role" := VRole r]> d2) "role";
          Ok (<["alternate_view" := py_or av (VBool (py_ne r' (VRole ceiling)))]>
                (<["role" := VRole r]> d2), drop_invalid_role str_upper u2)))).
  { intros r ceiling.
    pose proof (same_view_flag a _ _ (py_ne (VRole r) (VRole ceiling))
                  (same_view_insert a d1 d2 "role" (VRole r)
                     ltac:(done) ltac:(done) Hdd)) as Hf.
    destruct (getitem (<["role" := VRole r]> d1) "alternate_view") as [av1|];
      destruct (getitem (<["role" := VRole r]> d2) "alternate_view") as [av2|];
      simpl in *; try done.
    by rewrite !getitem_insert_eq. }
  destruct (getitem d2 "viewer") as [v|]; simpl; [|done].
  destruct (getattr v "admin") as [x|]; simpl; [|done].
  destruct (truthy x); simpl.
  { destruct (Role_getitem _) as [r|]; simpl; [apply Hbranch|done]. }
  destruct (getattr v "faculty") as [f|]; simpl; [|done].
  destruct (truthy f); simpl.
  { destruct (Role_getitem _) as [r|]; simpl; [apply Hbranch|done]. }
  destruct (getitem d2 "instructor") as [i|]; simpl; [|done].
  destruct (truthy i); simpl.
  { destruct (Role_getitem _) as [r|]; simpl; [apply Hbranch|done]. }
  apply Hbranch.
Qed.

Lemma resolve_from_viewer_tail (context : gmap string value)
    (url_args : gmap string string) (kwargs : gmap string value) :
  resolve_from_viewer str_upper D context url_args kwargs =
  (c1 ← _set_viewer_context D context url_args kwargs;
   c2 ← _set_course_context D c1 url_args kwargs;
   c3 ← _set_instructor_context D c2 url_args kwargs;
   c4 ← _set_student_context D c3 url_args kwargs;
   check_standing c4;;
   c5 ← context_of (_set_role_context str_upper c4 url_args kwargs);
   check_min_role str_upper c5 kwargs;;
   Ok c5).
Proof.
  unfold resolve_from_viewer.
  apply bind_ext; intros c1. apply bind_ext; intros c2.
  apply bind_ext; intros c3. apply bind_ext; intros c4.
  apply bind_ext; intros _.
  destruct (_set_role_context _ _ _ _) as [[c5 u5]|]; done.
Qed.

(** X21. An admin who names another stored user in [viewer] gets what that
    user gets: lines 126-135 end for the admin as they end for the named
    user's own request without the parameter, with the same exception or
    abort, or with the same context except that [user] is the admin and
    [alternate_view] is true. *)
Theorem impersonation_shows_the_users_view (a w : User) (e : string)
    (url_args : gmap string string) (kwargs : gmap string value) :
  admin a = true ->
  url_args !! "viewer" = Some e ->
  user_by_email D (VStr e) = Some w ->
  a ≠ w ->
  alike (fun c1 c2 => c1 = <["user" := VUser a]> (<["alternate_view" := VBool true]> c2))
    (resolve_from_viewer str_upper D {["user" := VUser a]} url_args kwargs)
    (resolve_from_viewer str_upper D {["user" := VUser w]}
       (delete "viewer" url_args) kwargs).
Proof.
  intros Ha He Hw Haw. rewrite !resolve_from_viewer_tail.
  assert (H1 : _set_viewer_context D {["user" := VUser a]} url_args kwargs =
    Ok (<["alternate_view" := VBool true]>
          (<["viewer" := VUser w]> {["user" := VUser a]}))).
  { unfold _set_viewer_context, contains, getitem, User_first.
    rewrite lookup_singleton_eq. simpl. rewrite Ha, He. simpl. rewrite Hw.
    simplify_map_eq/=. by rewrite py_ne_User, bool_decide_eq_true_2. }
  assert (H2 : _set_viewer_context D {["user" := VUser w]}
                 (delete "viewer" url_args) kwargs =
    Ok (<["alternate_view" := VBool false]>
          (<["viewer" := VUser w]> {["user" := VUser w]}))).
  { unfold _set_viewer_context, contains, getitem.
    rewrite lookup_singleton_eq. simpl.
    rewrite lookup_delete_eq, andb_false_r. simpl.
    rewrite lookup_singleton_ne by done. simpl.
    simplify_map_eq/=. by rewrite py_ne_User, bool_decide_eq_false_2 by auto. }
  rewrite H1, H2. simpl. clear H1 H2.
  assert (H0 : same_view a
    (<["alternate_view" := VBool true]>
       (<["viewer" := VUser w]> {["user" := VUser a]}))
    (<["alternate_view" := VBool false]>
       (<["viewer" := VUser w]> {["user" := VUser w]}))).
  { split_and!; try by simplify_map_eq.
    - exists false. by simplify_map_eq.
    - intros k Hk1 Hk2. rewrite !(lookup_insert_ne _ "alternate_view") by done.
      destruct (decide (k = "viewer")) as [->|Hk3]; [by simplify_map_eq|].
      rewrite !(lookup_insert_ne _ "viewer") by done.
      by rewrite !lookup_singleton_ne. }
  eapply alike_bind; [by apply same_view_course|]. intros c2 c2' H2.
  eapply alike_bind; [by apply same_view_instructor|]. intros c3 c3' H3.
  eapply alike_bind; [by apply same_view_student|]. intros c4 c4' H4.
  rewrite (same_view_standing a c4 c4' H4).
  destruct (check_standing c4'); simpl; [|done].
  eapply alike_bind.
  { apply same_view_role; [|done]. by rewrite lookup_delete_ne. }
  intros c5 c5' H5.
  rewrite (same_view_min_role a c5 c5' kwargs H5).
  destruct (check_min_role str_upper c5' kwargs); simpl; [|done].
  destruct H5 as (Hu & Hav & [b Hb] & Hs).
  apply map_eq. intros k.
  destruct (decide (k = "user")) as [->|Hk1]; [by rewrite lookup_insert_eq|].
  rewrite lookup_insert_ne by done.
  destruct (decide (k = "alternate_view")) as [->|Hk2]; [by rewrite lookup_insert_eq|].
  rewrite lookup_insert_ne by done. by apply Hs.
Qed.

End Impersonation.

(** * The further properties at concrete requests *)

Lemma anonymous_is_unauthorized_witness :
  let rq := Sample.request_of "nobody@x.edu" [("viewer", "alice@x.edu")] in
  let kwargs : gmap string value := {["user" := VInt 1]} in
  kwargs !! "context" = None /\
  kwargs !! "url_args" = None /\
  truthy (default (VBool true) (kwargs !! "login_required")) = true /\
  user_by_email Sample.data (default VNone (session rq !! "user_email")) = None /\
  get_context ascii_upper Sample.data rq kwargs = abort 401.
Proof.
  intros rq kwargs. repeat (split; [reflexivity|]).
  apply (anonymous_is_unauthorized ascii_upper Sample.data rq kwargs); reflexivity.
Defined.

Lemma admin_viewer_is_honoured_witness :
  let context : gmap string value := {["user" := VUser Sample.alice]} in
  let url_args : gmap string string := {["viewer" := "carol@x.edu"]} in
  context !! "user" = Some (VUser Sample.alice) /\
  admin Sample.alice = true /\
  url_args !! "viewer" = Some "carol@x.edu" /\
  user_by_email Sample.data (VStr "carol@x.edu") = Some Sample.carol /\
  _set_viewer_context Sample.data context url_args ∅ =
  Ok (<["alternate_view" := VBool (bool_decide (Sample.alice ≠ Sample.carol))]>
        (<["viewer" := VUser Sample.carol]> context)).
Proof.
  intros context url_args. repeat (split; [reflexivity|]).
  apply (admin_viewer_is_honoured Sample.data context url_args ∅
           Sample.alice Sample.carol "carol@x.edu"); reflexivity.
Defined.

Lemma viewer_falls_back_to_user_witness :
  let context : gmap string value := {["user" := VUser Sample.alice]} in
  let url_args : gmap string string := {["viewer" := "nobody@x.edu"]} in
  context !! "user" = Some (VUser Sample.alice) /\
  _set_viewer_context Sample.data context url_args ∅ =
  Ok (<["alternate_view" := VBool false]> (<["viewer" := VUser Sample.alice]> context)).
Proof.
  intros context url_args. split; [reflexivity|].
  destruct (viewer_falls_back_to_user Sample.data context url_args ∅ Sample.alice)
    as [H _]; [reflexivity|].
  apply (H "nobody@x.edu"); reflexivity.
Defined.

Lemma unknown_course_standing_witness :
  let context : gmap string value := {["viewer" := VUser Sample.bob]} in
  let kwargs : gmap string value := {["course_id" := VInt 9]} in
  context !! "viewer" = Some (VUser Sample.bob) /\
  kwargs !! "course_id" = Some (VInt 9) /\
  course_by_id Sample.data (VInt 9) = None /\
  exists c4,
    (c2 ← _set_course_context Sample.data context ∅ kwargs;
     c3 ← _set_instructor_context Sample.data c2 ∅ kwargs;
     _set_student_context Sample.data c3 ∅ kwargs) = Ok c4 /\
    c4 !! "course" = Some VNone /\
    c4 !! "instructor" = Some (VBool (admin Sample.bob)) /\
    c4 !! "student" = Some (VBool false) /\
    check_standing c4 = if admin Sample.bob then Ok tt else abort 403.
Proof.
  intros context kwargs. repeat (split; [reflexivity|]).
  apply (unknown_course_standing Sample.data context ∅ kwargs Sample.bob (VInt 9));
    reflexivity.
Defined.

(** The context of carol, who teaches course 7, before role resolution. *)
Lemma valid_role_is_clamped_witness :
  let context : gmap string value :=
    {["user" := VUser Sample.carol; "viewer" := VUser Sample.carol;
      "alternate_view" := VBool false; "instructor" := VBool true;
      "student" := VBool false]} in
  let url_args : gmap string string := {["role" := "Faculty"]} in
  context !! "viewer" = Some (VUser Sample.carol) /\
  context !! "instructor" = Some (VBool true) /\
  context !! "alternate_view" = Some (VBool false) /\
  url_args !! "role" = Some "Faculty" /\
  Role_getitem (ascii_upper "Faculty") = Ok FACULTY /\
  exists c5,
    _set_role_context ascii_upper context url_args ∅ = Ok (c5, url_args) /\
    c5 !! "role" =
      Some (VRole (Role_min FACULTY (trueCeiling Sample.carol (truthy (VBool true))))) /\
    c5 !! "alternate_view" =
      Some (VBool (false ||
        (Role_value FACULTY <?
         Role_value (trueCeiling Sample.carol (truthy (VBool true)))))).
Proof.
  intros context url_args. repeat (split; [reflexivity|]).
  apply (valid_role_is_clamped ascii_upper context url_args ∅ Sample.carol
           (VBool true) false "Faculty" FACULTY); reflexivity.
Defined.

(** The context of dave, who takes course 7, before role resolution. *)
Lemma student_level_ignores_role_witness :
  let context : gmap string value :=
    {["user" := VUser Sample.dave; "viewer" := VUser Sample.dave;
      "alternate_view" := VBool false; "instructor" := VBool false;
      "student" := VBool true]} in
  let url_args : gmap string string := {["role" := "admin"]} in
  context !! "viewer" = Some (VUser Sample.dave) /\
  context !! "instructor" = Some (VBool false) /\
  context !! "alternate_view" = Some (VBool false) /\
  admin Sample.dave = false /\ faculty Sample.dave = false /\
  truthy (VBool false) = false /\
  exists c5,
    _set_role_context ascii_upper context url_args ∅ =
      Ok (c5, drop_invalid_role ascii_upper url_args) /\
    c5 !! "role" = Some (VRole STUDENT) /\
    c5 !! "alternate_view" = Some (VBool false).
Proof.
  intros context url_args. repeat (split; [reflexivity|]).
  apply (student_level_ignores_role ascii_upper context url_args ∅ Sample.dave
           (VBool false) false); reflexivity.
Defined.

(** alice rendered as carol: the flag is set before role resolution. *)
Lemma alternate_view_is_kept_witness :
  let context : gmap string value :=
    {["user" := VUser Sample.alice; "viewer" := VUser Sample.carol;
      "alternate_view" := VBool true; "instructor" := VBool true;
      "student" := VBool false]} in
  let c5 : gmap string value :=
    <["alternate_view" := VBool true]>
      (<["role" := VRole INSTRUCTOR]> (<["Role" := VObject "Role"]> context)) in
  _set_role_context ascii_upper context ∅ ∅ = Ok (c5, ∅) /\
  context !! "alternate_view" = Some (VBool true) /\
  c5 !! "alternate_view" = Some (VBool true).
Proof.
  intros context c5.
  assert (H : _set_role_context ascii_upper context ∅ ∅ = Ok (c5, ∅))
    by (vm_compute; reflexivity).
  split; [exact H|]. split; [reflexivity|].
  exact (alternate_view_is_kept ascii_upper context ∅ ∅ c5 ∅ H eq_refl).
Defined.

Lemma role_resolution_frame_witness :
  let context : gmap string value :=
    {["user" := VUser Sample.carol; "viewer" := VUser Sample.carol;
      "alternate_view" := VBool false; "instructor" := VBool true;
      "student" := VBool false]} in
  let url_args : gmap string string :=
    {["role" := "teacher"; "page" := "2"]} in
  let c5 : gmap string value :=
    <["alternate_view" := VBool false]>
      (<["role" := VRole INSTRUCTOR]> (<["Role" := VObject "Role"]> context)) in
  let url_args' : gmap string string := {["page" := "2"]} in
  _set_role_context ascii_upper context url_args ∅ = Ok (c5, url_args') /\
  (forall k, k ≠ "Role" -> k ≠ "role" -> k ≠ "alternate_view" ->
     c5 !! k = context !! k) /\
  c5 !! "Role" = Some (VObject "Role") /\
  (forall k, k ≠ "role" -> url_args' !! k = url_args !! k) /\
  (forall s, url_args' !! "role" = Some s ->
     url_args !! "role" = Some s /\ in_Role_members (ascii_upper s) = true) /\
  (url_args' !! "role" = None ->
   forall s, url_args !! "role" = Some s -> in_Role_members (ascii_upper s) = false).
Proof.
  intros context url_args c5 url_args'.
  assert (H : _set_role_context ascii_upper context url_args ∅ = Ok (c5, url_args'))
    by (vm_compute; reflexivity).
  split; [exact H|].
  exact (role_resolution_frame ascii_upper context url_args ∅ c5 url_args' H).
Defined.

(** carol, instructor of course 7, previews the role of a student on a page
    for instructors. *)
Lemma min_role_sees_downgraded_role_witness :
  let context : gmap string value :=
    {["user" := VUser Sample.carol; "viewer" := VUser Sample.carol;
      "alternate_view" := VBool false; "instructor" := VBool true;
      "student" := VBool false]} in
  let url_args : gmap string string := {["role" := "student"]} in
  let kwargs : gmap string value :=
    {["course_id" := VInt 7; "min_role" := VStr "instructor"]} in
  context !! "viewer" = Some (VUser Sample.carol) /\
  context !! "instructor" = Some (VBool true) /\
  context !! "alternate_view" = Some (VBool false) /\
  url_args !! "role" = Some "student" /\
  Role_getitem (ascii_upper "student") = Ok STUDENT /\
  kwargs !! "min_role" = Some (VStr "instructor") /\
  Role_getitem (ascii_upper "instructor") = Ok INSTRUCTOR /\
  ('(c, _) ← _set_role_context ascii_upper context url_args kwargs;
   check_min_role ascii_upper c kwargs) = abort 403.
Proof.
  intros context url_args kwargs. repeat (split; [reflexivity|]).
  apply (min_role_sees_downgraded_role ascii_upper context url_args kwargs
           Sample.carol (VBool true) false "student" "instructor"
           STUDENT INSTRUCTOR); reflexivity.
Defined.

Lemma default_min_role_never_blocks_witness :
  let context : gmap string value :=
    {["user" := VUser Sample.dave; "viewer" := VUser Sample.dave;
      "alternate_view" := VBool false; "instructor" := VBool false;
      "student" := VBool true]} in
  let c5 : gmap string value :=
    <["alternate_view" := VBool false]>
      (<["role" := VRole STUDENT]> (<["Role" := VObject "Role"]> context)) in
  (forall s, is_ascii s = true -> ascii_upper s = ascii_upper s) /\
  _set_role_context ascii_upper context ∅ ∅ = Ok (c5, ∅) /\
  (∅ : gmap string value) !! "min_role" = None /\
  check_min_role ascii_upper c5 ∅ = Ok tt.
Proof.
  intros context c5.
  assert (Hup : forall s, is_ascii s = true -> ascii_upper s = ascii_upper s)
    by (intros; reflexivity).
  assert (H : _set_role_context ascii_upper context ∅ ∅ = Ok (c5, ∅))
    by (vm_compute; reflexivity).
  split; [exact Hup|]. split; [exact H|]. split; [reflexivity|].
  exact (default_min_role_never_blocks ascii_upper Hup context ∅ ∅ c5 ∅ H eq_refl).
Defined.

Lemma Role_lookup_ignores_case_witness :
  (forall s, is_ascii s = true -> ascii_upper s = ascii_upper s) /\
  is_ascii "aDmIn" = true /\
  ascii_upper "aDmIn" = Role_name ADMIN /\
  Role_getitem (ascii_upper "aDmIn") = Ok ADMIN /\
  Role_getitem (ascii_upper (ascii_lower "aDmIn")) = Ok ADMIN /\
  Role_getitem (ascii_upper (ascii_upper "aDmIn")) = Ok ADMIN.
Proof.
  assert (Hup : forall s, is_ascii s = true -> ascii_upper s = ascii_upper s)
    by (intros; reflexivity).
  split; [exact Hup|]. split; [reflexivity|]. split; [reflexivity|].
  apply (Role_lookup_ignores_case ascii_upper Hup "aDmIn" ADMIN); reflexivity.
Defined.

(** carol asks for a page of course 7, which she teaches. *)
Lemma plain_request_resolves_witness :
  let kwargs : gmap string value := {["course_id" := VInt 7]} in
  (forall s, is_ascii s = true -> ascii_upper s = ascii_upper s) /\
  (∅ : gmap string string) !! "viewer" = None /\
  (∅ : gmap string string) !! "role" = None /\
  kwargs !! "course_id" = Some (VInt 7) /\
  course_by_id Sample.data (VInt 7) = Some Sample.course7 /\
  kwargs !! "min_role" = None /\
  admin Sample.carol || teaching Sample.data Sample.carol Sample.course7
    || taking Sample.data Sample.carol Sample.course7 = true /\
  resolve_from_viewer ascii_upper Sample.data {["user" := VUser Sample.carol]} ∅ kwargs =
  Ok {["user" := VUser Sample.carol; "viewer" := VUser Sample.carol;
       "alternate_view" := VBool false; "course" := VCourse Sample.course7;
       "instructor" :=
         VBool (admin Sample.carol || teaching Sample.data Sample.carol Sample.course7);
       "student" := VBool (taking Sample.data Sample.carol Sample.course7);
       "Role" := VObject "Role";
       "role" := VRole (trueCeiling Sample.carol
         (admin Sample.carol || teaching Sample.data Sample.carol Sample.course7))]}.
Proof.
  intros kwargs.
  assert (Hup : forall s, is_ascii s = true -> ascii_upper s = ascii_upper s)
    by (intros; reflexivity).
  split; [exact Hup|]. repeat (split; [reflexivity|]).
  apply (plain_request_resolves ascii_upper Sample.data Hup Sample.carol
           Sample.course7 (VInt 7) ∅ kwargs); reflexivity.
Defined.

Lemma home_context_is_the_same_for_all_witness :
  let rq1 := Sample.request_of "alice@x.edu" [] in
  let rq2 := Sample.request_of "dave@x.edu" [] in
  Routes.get_user Sample.data rq1 = VUser Sample.alice /\
  Routes.get_user Sample.data rq2 = VUser Sample.dave /\
  exists c1 c2,
    Routes.get_context Sample.data SampleRoutes.tables rq1 = Ok c1 /\
    Routes.get_context Sample.data SampleRoutes.tables rq2 = Ok c2 /\
    c1 = <["user" := Routes.TObject (VUser Sample.alice)]> c2 /\
    c1 !! "users" = Some (Routes.TList (Routes.users SampleRoutes.tables)) /\
    c1 !! "courses" = Some (Routes.TList (Routes.courses SampleRoutes.tables)) /\
    c1 !! "assignments" = Some (Routes.TList (Routes.assignments SampleRoutes.tables)) /\
    c1 !! "questions" = Some (Routes.TList (Routes.questions SampleRoutes.tables)) /\
    c1 !! "question_files" =
      Some (Routes.TList (Routes.question_files SampleRoutes.tables)) /\
    dom c1 = list_to_set ["user"; "users"; "courses"; "assignments";
                          "questions"; "question_files"].
Proof.
  intros rq1 rq2. split; [reflexivity|]. split; [reflexivity|].
  apply (home_context_is_the_same_for_all Sample.data SampleRoutes.tables rq1 rq2
           Sample.alice Sample.dave); reflexivity.
Defined.

Lemma rules_bind_their_views_witness :
  let r := {| Routes.rule_url := "/file/<file>"; Routes.rule_view := "file_view";
              Routes.rule_variables := ["file"];
              Routes.view_parameters := ["file_id"] |} in
  let view_args : gmap string value := {["file" := VStr "notes.txt"]} in
  r ∈ Routes.url_map /\
  dom view_args = list_to_set (Routes.rule_variables r) /\
  Routes.bind_keywords (Routes.view_parameters r) view_args = Raise TypeError.
Proof.
  intros r view_args.
  assert (Hr : r ∈ Routes.url_map)
    by (apply (bool_decide_unpack _); vm_compute; exact I).
  assert (Hd : dom view_args = list_to_set (Routes.rule_variables r))
    by (apply (bool_decide_unpack _); vm_compute; exact I).
  split; [exact Hr|]. split; [exact Hd|].
  exact (rules_bind_their_views r view_args Hr Hd).
Defined.

(** alice looks at course 7 as carol and asks for the role of a student. *)
Lemma impersonation_shows_the_users_view_witness :
  let url_args : gmap string string :=
    {["viewer" := "carol@x.edu"; "role" := "student"]} in
  let kwargs : gmap string value := {["course_id" := VInt 7]} in
  admin Sample.alice = true /\
  url_args !! "viewer" = Some "carol@x.edu" /\
  user_by_email Sample.data (VStr "carol@x.edu") = Some Sample.carol /\
  Sample.alice ≠ Sample.carol /\
  alike (fun c1 c2 =>
           c1 = <["user" := VUser Sample.alice]> (<["alternate_view" := VBool true]> c2))
    (resolve_from_viewer ascii_upper Sample.data {["user" := VUser Sample.alice]}
       url_args kwargs)
    (resolve_from_viewer ascii_upper Sample.data {["user" := VUser Sample.carol]}
       (delete "viewer" url_args) kwargs).
Proof.
  intros url_args kwargs.
  assert (Hne : Sample.alice ≠ Sample.carol) by discriminate.
  repeat (split; [reflexivity|]). split; [exact Hne|].
  apply (impersonation_shows_the_users_view ascii_upper Sample.data
           Sample.alice Sample.carol "carol@x.edu" url_args kwargs);
    (reflexivity || exact Hne).
Defined.

(** * The claims revisited on the sample data *)


(** C9 as it is written fails for an endpoint that passes an argument called
    [url_args]: line 116 cannot bind it and raises [TypeError], so nothing is
    returned. *)
Lemma login_not_required_url_args_keyword :
  let rq := Sample.request_of "carol@x.edu" [] in
  let kwargs : gmap string value :=
    {["login_required" := VBool false; "url_args" := VStr "x"]} in
  kwargs !! "login_required" = Some (VBool false) /\
  get_context ascii_upper Sample.data rq kwargs = Raise TypeError /\
  ~ (exists context, get_context ascii_upper Sample.data rq kwargs = Ok context).
Proof.
  intros rq kwargs.
  assert (H : get_context ascii_upper Sample.data rq kwargs = Raise TypeError).
  { apply get_context_keywords_refused. reflexivity. }
  split; [reflexivity|]. split; [exact H|].
  intros [context Hc]. rewrite H in Hc. discriminate.
Qed.

(** carol, instructor of course 7, asks for the role of a student in two
    spellings and for the unknown role [teacher]. *)
Lemma role_parameter_parsing_witness :
  let context : gmap string value :=
    {["user" := VUser Sample.carol; "viewer" := VUser Sample.carol;
      "alternate_view" := VBool false; "instructor" := VBool true;
      "student" := VBool false]} in
  let upper : gmap string string := <["role" := "STUDENT"]> ∅ in
  let mixed : gmap string string := <["role" := "sTuDeNt"]> ∅ in
  let teacher : gmap string string := <["role" := "teacher"]> ∅ in
  (forall s, is_ascii s = true -> ascii_upper s = ascii_upper s) /\
  context_of (_set_role_context ascii_upper context upper ∅) =
  context_of (_set_role_context ascii_upper context mixed ∅) /\
  (exists c5,
     _set_role_context ascii_upper context mixed ∅ = Ok (c5, mixed) /\
     c5 !! "role" =
       Some (VRole (Role_min STUDENT (trueCeiling Sample.carol (truthy (VBool true))))) /\
     c5 !! "alternate_view" =
       Some (VBool (false || (Role_value STUDENT <?
          Role_value (trueCeiling Sample.carol (truthy (VBool true))))))) /\
  _set_role_context ascii_upper context teacher ∅ =
  _set_role_context ascii_upper context (delete "role" teacher) ∅ /\
  exists c5,
    _set_role_context ascii_upper context teacher ∅ = Ok (c5, delete "role" teacher) /\
    c5 !! "role" = Some (VRole (trueCeiling Sample.carol (truthy (VBool true)))).
Proof.
  intros context upper mixed teacher.
  assert (Hup : forall s, is_ascii s = true -> ascii_upper s = ascii_upper s)
    by (intros; reflexivity).
  destruct (role_parameter_parsing ascii_upper Hup) as (H1 & H2 & H3 & H4).
  split; [exact Hup|]. split; [|split; [|split]].
  - apply H1; reflexivity.
  - apply (H2 "sTuDeNt" STUDENT context mixed ∅ Sample.carol (VBool true) false);
      reflexivity.
  - apply (H3 "teacher"); reflexivity.
  - apply (H4 "teacher" context teacher ∅ Sample.carol (VBool true) (VBool false));
      reflexivity.
Defined.
